(** * Suraksha AI: scam-classification pipeline and conversation ordering

    A shallow embedding of [src/project1.tsx]:
    - the response parsing and error handling of [checkMessageForScam],
    - the display sort of [MessageList],
    - the submission workflow of [handleSendMessage],
    - the warning box of [MessageItem] and its helper functions,
    - the form of [MessageInput],
    - the state, the listeners and the rendering of [Chat].

    Conventions.  A JavaScript string is a [string]; one [ascii] stands for
    one code unit in the range 0..255, so texts with code units above 255 are
    outside the model.  The numbers of the program are integer-valued
    doubles or infinities, a [JsNumber]; the result [NaN] of [parseInt] is
    [None]. *)

From Stdlib Require Import ZArith QArith Lqa List Bool Lia.
From Stdlib Require Import Strings.String Strings.Ascii.
From Stdlib Require Import DecimalString DecimalZ DecimalPos DecimalN.
From Stdlib Require Import Sorting.Permutation Sorting.Sorted.
Import ListNotations.

Open Scope string_scope.
Open Scope Z_scope.

(* ================================================================== *)
(** ** JavaScript string primitives used by the parser *)
(* ================================================================== *)

Module JsString.

(** White space removed by [String.prototype.trim] and skipped by
    [parseInt], restricted to code units below 256: TAB, LF, VT, FF, CR,
    SPACE and NO-BREAK SPACE. *)
Definition isWhiteSpace (c : ascii) : bool :=
  let n := nat_of_ascii c in
  ((9 <=? n) && (n <=? 13))%nat || (n =? 32)%nat || (n =? 160)%nat.

Fixpoint trimStart (s : string) : string :=
  match s with
  | EmptyString => EmptyString
  | String c s' => if isWhiteSpace c then trimStart s' else s
  end.

Fixpoint trimEnd (s : string) : string :=
  match s with
  | EmptyString => EmptyString
  | String c s' =>
      match trimEnd s' with
      | EmptyString => if isWhiteSpace c then EmptyString else String c EmptyString
      | t => String c t
      end
  end.

(** [s.trim()] *)
Definition trim (s : string) : string := trimEnd (trimStart s).

(** [s.split(sep)] for a one-character separator: the list of the maximal
    pieces between separators; it is never empty ([''.split('|')] is
    [['']]). *)
Fixpoint split (sep : ascii) (s : string) : list string :=
  match s with
  | EmptyString => [EmptyString]
  | String c s' =>
      if Ascii.eqb c sep then EmptyString :: split sep s'
      else match split sep s' with
           | piece :: rest => String c piece :: rest
           | [] => [String c EmptyString]
           end
  end.

(** Number of occurrences of a character. *)
Fixpoint count (sep : ascii) (s : string) : nat :=
  match s with
  | EmptyString => O
  | String c s' => if Ascii.eqb c sep then S (count sep s') else count sep s'
  end.

(** [arr.includes(x)] on an array of strings. *)
Fixpoint includes (arr : list string) (x : string) : bool :=
  match arr with
  | [] => false
  | y :: arr' => String.eqb y x || includes arr' x
  end.

(** [a || b] on strings: the empty string is falsy. *)
Definition or_else (a b : string) : string :=
  match a with
  | EmptyString => b
  | _ => a
  end.

(** *** [parseInt(s)] with no radix argument (ECMAScript 19.2.5) *)

(** Value of a digit in the given radix, [None] when the character is not a
    digit of that radix. *)
Definition digitValue (radix : Z) (c : ascii) : option Z :=
  let n := Z.of_nat (nat_of_ascii c) in
  let v := if (48 <=? n) && (n <=? 57) then Some (n - 48)
           else if (97 <=? n) && (n <=? 122) then Some (n - 87)
           else if (65 <=? n) && (n <=? 90) then Some (n - 55)
           else None in
  match v with
  | Some d => if d <? radix then Some d else None
  | None => None
  end.

(** Reads the longest prefix of radix digits, most significant first.
    [acc] is the value read so far and [seen] tells whether at least one
    digit was read. *)
Fixpoint readDigits (radix : Z) (s : string) (acc : Z) (seen : bool)
  : option Z :=
  match s with
  | EmptyString => if seen then Some acc else None
  | String c s' =>
      match digitValue radix c with
      | Some d => readDigits radix s' (acc * radix + d) true
      | None => if seen then Some acc else None
      end
  end.

(** Steps 6-8 of [parseInt]: a leading [0x] or [0X] selects radix 16 and is
    removed, otherwise the radix is 10. *)
Definition stripPrefix (s : string) : Z * string :=
  match s with
  | String c0 (String c1 rest) =>
      if Ascii.eqb c0 "0" && (Ascii.eqb c1 "x" || Ascii.eqb c1 "X")
      then (16, rest) else (10, s)
  | _ => (10, s)
  end.

(** Steps 3-4 of [parseInt]: an optional sign. *)
Definition stripSign (s : string) : Z * string :=
  match s with
  | String c rest =>
      if Ascii.eqb c "-" then (-1, rest)
      else if Ascii.eqb c "+" then (1, rest)
      else (1, s)
  | EmptyString => (1, s)
  end.

(** A number other than [NaN] that [parseInt] returns: an integer-valued
    double, or an infinity.  The sign of zero is not kept: the program only
    prints and stores the number, and [-0] prints as [0]. *)
Inductive JsNumber : Type :=
| Finite (z : Z)
| Infinity (negative : bool).

Coercion Finite : Z >-> JsNumber.

(** The double nearest to an integer, ties to the even significand of 53
    bits; below 2^53 in absolute value every integer is a double. *)
Definition roundToDouble (z : Z) : Z :=
  let a := Z.abs z in
  let drop := Z.log2 a - 52 in
  if drop <=? 0 then z
  else
    let q := Z.shiftr a drop in
    let rest := a - Z.shiftl q drop in
    let half := Z.shiftl 1 (drop - 1) in
    let q' := if (half <? rest) || ((rest =? half) && Z.odd q)
              then q + 1 else q in
    Z.sgn z * Z.shiftl q' drop.

(** The number value of a mathematical integer: what rounds to 2^1024 or
    beyond is an infinity. *)
Definition toNumber (z : Z) : JsNumber :=
  let r := roundToDouble z in
  if Z.log2 (Z.abs r) <? 1024 then Finite r else Infinity (z <? 0).

(** Step 16 of [parseInt]: the result is the number value of the integer
    read.  (Past 20 significant digits the standard lets an engine
    approximate; the correctly rounded value is taken.) *)
Definition parseInt (s : string) : option JsNumber :=
  let '(sign, s1) := stripSign (trimStart s) in
  let '(radix, s2) := stripPrefix s1 in
  match readDigits radix s2 0 false with
  | Some mathInt => Some (toNumber (sign * mathInt))
  | None => None
  end.

(** [isNaN(x)] on the result of [parseInt]. *)
Definition isNaN (x : option JsNumber) : bool :=
  match x with
  | Some _ => false
  | None => true
  end.

End JsString.

Import JsString.

(* ================================================================== *)
(** ** The classification record and the response parser *)
(* ================================================================== *)

(** The object returned by [checkMessageForScam]. *)
Record Classification : Type := mkClassification {
  isScam : bool;
  scamLevel : string;
  scamPercentage : JsNumber;
  scamWarning : string
}.

Definition validLevels : list string :=
  ["SAFE"; "POTENTIAL_SCAM"; "HIGHLY_LIKELY_SCAM"].

(** The fallback object of line 92. *)
Definition unknownResult : Classification :=
  {| isScam := false;
     scamLevel := "UNKNOWN";
     scamPercentage := 0;
     scamWarning := "Could not determine scam status from AI response." |}.

(** Lines 75-92 of [checkMessageForScam]: from the raw text of the first
    completion to the classification.  [parts[i]] is read only under
    [parts.length >= 3], so the default of [nth] is never used. *)
Definition parseRawText (rawText : string) : Classification :=
  let parts := split "|" rawText in
  if (3 <=? List.length parts)%nat then
    let level := trim (nth 0 parts "") in
    let percentage := parseInt (trim (nth 1 parts "")) in
    let explanation := trim (nth 2 parts "") in
    if includes validLevels level && negb (isNaN percentage) then
      match percentage with
      | Some pct =>
          {| isScam := negb (String.eqb level "SAFE");
             scamLevel := level;
             scamPercentage := pct;
             scamWarning := or_else explanation "No specific reason provided." |}
      | None => unknownResult
      end
    else unknownResult
  else unknownResult.

(** The text that follows the first [n] occurrences of the separator, as the
    specification words the explanation ("remainder after the first two
    delimiters"); [None] when there are fewer than [n] separators.  It is
    compared with what [parseRawText] takes, and is not part of the code. *)
Fixpoint remainderAfter (n : nat) (sep : ascii) (s : string) : option string :=
  match n with
  | O => Some s
  | S n' =>
      match s with
      | EmptyString => None
      | String c s' =>
          if Ascii.eqb c sep then remainderAfter n' sep s'
          else remainderAfter n sep s'
      end
  end.

(* ================================================================== *)
(** ** The classifier call: [checkMessageForScam] *)
(* ================================================================== *)

(** Result of an operation that may throw; an exception carries the
    [message] of the thrown [Error]. *)
Inductive Exc (A : Type) : Type :=
| Return (a : A)
| Throw (message : string).
Arguments Return {A} a.
Arguments Throw {A} message.

Definition bindExc {A B : Type} (m : Exc A) (k : A -> Exc B) : Exc B :=
  match m with
  | Return a => k a
  | Throw msg => Throw msg
  end.

Notation "x <- m ;; k" := (bindExc m (fun x => k))
  (at level 61, m at next level, right associativity).

(** The [text] of a part: a string, or a value that is not one (the field
    is missing, or is [null], a number, ...), on which [rawText.split]
    raises a [TypeError]; [typeError] is the message of that error, which
    depends on the value and on the engine. *)
Inductive TextField : Type :=
| TextString (rawText : string)
| TextOther (typeError : string).

(** The parts of the response body that the code reads. *)
Record Part : Type := { part_text : TextField }.
Record Content : Type := { parts : option (list Part) }.
Record Candidate : Type := { content : option Content }.

(** The JSON body: [error.message] is read on a non-success status,
    [candidates] on success. *)
Record Body : Type := {
  error_message : option string;
  candidates : option (list Candidate)
}.

(** What [fetch] resolves to; [json] is the outcome of [response.json()],
    which throws when the body is not JSON. *)
Record Response : Type := {
  ok : bool;
  statusText : string;
  json : Exc Body
}.

(** [await fetch(...)] either resolves to a response or rejects. *)
Definition FetchOutcome : Type := Exc Response.

(** [errorData?.error?.message || 'Unknown AI error'] *)
Definition errorDetail (errorData : Body) : string :=
  match error_message errorData with
  | Some m => or_else m "Unknown AI error"
  | None => "Unknown AI error"
  end.

(** The condition of lines 70-72; on success it yields
    [result.candidates[0].content.parts[0]]. *)
Definition firstPart (result : Body) : option Part :=
  match candidates result with
  | Some (c :: _) =>
      match content c with
      | Some ct =>
          match parts ct with
          | Some (p :: _) => Some p
          | _ => None
          end
      | None => None
      end
  | _ => None
  end.

(** The body of the [try] block, lines 56-96.  The request is built from
    the prompt alone; what the endpoint answers is the argument. *)
Definition tryBlock (fetched : FetchOutcome) : Exc Classification :=
  response <- fetched ;;
  if negb (ok response) then
    errorData <- json response ;;
    Throw ("AI API request failed: " ++ statusText response ++ " - "
           ++ errorDetail errorData)
  else
    result <- json response ;;
    match firstPart result with
    | Some p =>
        match part_text p with
        | TextString rawText => Return (parseRawText rawText)
        | TextOther typeError => Throw typeError
        end
    | None => Throw "Could not understand the AI response. Unexpected format."
    end.

(** The object built in the [catch] block, line 99. *)
Definition errorResult (message : string) : Classification :=
  {| isScam := false;
     scamLevel := "ERROR";
     scamPercentage := 0;
     scamWarning := "Error during analysis: " ++ message |}.

Definition checkMessageForScam (fetched : FetchOutcome) : Classification :=
  match tryBlock fetched with
  | Return c => c
  | Throw message => errorResult message
  end.

(** The three ways the call fails: the transport rejects, the status is not
    a success, or the body is well formed but holds no completion. *)
Inductive CallFails : FetchOutcome -> Prop :=
| fails_transport : forall message,
    CallFails (Throw message)
| fails_status : forall r,
    ok r = false -> CallFails (Return r)
| fails_no_candidate : forall r body,
    ok r = true -> json r = Return body -> firstPart body = None ->
    CallFails (Return r).

(** What is thrown inside the [try] block, case by case: the rejection of
    [fetch], the error of line 65 built from the status text and the error
    body, the rejection of [response.json()], the error of line 95, and the
    [TypeError] of [rawText.split] on a text that is not a string. *)
Inductive Thrown : FetchOutcome -> string -> Prop :=
| thrown_transport : forall message,
    Thrown (Throw message) message
| thrown_status : forall r errorData,
    ok r = false -> json r = Return errorData ->
    Thrown (Return r)
           ("AI API request failed: " ++ statusText r ++ " - "
            ++ errorDetail errorData)
| thrown_body : forall r message,
    json r = Throw message ->
    Thrown (Return r) message
| thrown_no_candidate : forall r body,
    ok r = true -> json r = Return body -> firstPart body = None ->
    Thrown (Return r)
           "Could not understand the AI response. Unexpected format."
| thrown_no_text : forall r body p typeError,
    ok r = true -> json r = Return body -> firstPart body = Some p ->
    part_text p = TextOther typeError ->
    Thrown (Return r) typeError.

(* ================================================================== *)
(** ** Messages and the display sort of [MessageList] *)
(* ================================================================== *)

Inductive Sender : Type := user | ai.

(** Firestore [Timestamp]. *)
Record Timestamp : Type := { seconds : Z; nanoseconds : Z }.

(** The data of one document of [users/{uid}/messages].  The four optional
    fields [isScam], [scamLevel], [scamPercentage] and [scamWarning] are
    written together or not at all, so they are kept as one optional
    [Classification]. *)
Record DocData : Type := {
  text : string;
  sender : Sender;
  analysis : option Classification
}.

(** [interface Message]: a document as the snapshot listener delivers it.
    [timestamp] is [None] while the server time is not yet known. *)
Record Message : Type := {
  id : string;
  data : DocData;
  timestamp : option Timestamp
}.

(** [arr.sort(compareFn)] on a copy of the array.  Since ES2019 the sort is
    stable, and for a consistent comparator its result is the one list that
    is ordered by the comparator and keeps the input order of the elements
    the comparator does not separate; insertion from the right computes
    it. *)
Section ArraySort.
Context {A : Type}.
Variable compareFn : A -> A -> Q.

Fixpoint insert (x : A) (l : list A) : list A :=
  match l with
  | [] => [x]
  | y :: l' =>
      if Qle_bool (compareFn x y) 0 then x :: l
      else y :: insert x l'
  end.

Fixpoint sort (l : list A) : list A :=
  match l with
  | [] => []
  | x :: l' => insert x (sort l')
  end.
End ArraySort.

Section Display.
(** Rounding of a real to the nearest double.  The sort only looks at the
    sign of [timeA - timeB], and the difference of two doubles has the sign
    of their exact difference, so the subtraction is left exact. *)
Variable toDouble : Q -> Q.

(** [a.timestamp ? a.timestamp.seconds + a.timestamp.nanoseconds / 1e9 : 0] *)
Definition timeOf (m : Message) : Q :=
  match timestamp m with
  | Some t =>
      toDouble (inject_Z (seconds t)
                + toDouble (inject_Z (nanoseconds t) / inject_Z 1000000000))
  | None => 0%Q
  end.

(** The comparator of line 248. *)
Definition byTime (a b : Message) : Q := (timeOf a - timeOf b)%Q.

Definition sortedMessages (messages : list Message) : list Message :=
  sort byTime messages.
End Display.

(** On the integers up to 2^53 and on sums with no fractional part the
    double arithmetic is exact. *)
Definition exact (q : Q) : Q := q.

(* ================================================================== *)
(** ** The submission workflow: [handleSendMessage] *)
(* ================================================================== *)

(** The three documents of lines 393-418 ([timestamp] is
    [serverTimestamp()] in each and is assigned by the store). *)
Definition userDoc (input : string) : DocData :=
  {| text := input; sender := user; analysis := None |}.

Definition placeholderDoc : DocData :=
  {| text := "I've analyzed this message for potential scam indicators.";
     sender := ai; analysis := None |}.

Definition finalDoc (scamAnalysis : Classification) : DocData :=
  {| text := "Analysis complete."; sender := ai;
     analysis := Some scamAnalysis |}.

(** Where an activation of the async function is suspended. *)
Inductive Await : Type :=
| AwaitUserDoc (input : string)                 (* line 393 *)
| AwaitPlaceholderDoc (input : string)          (* line 400 *)
| AwaitAnalysis (input : string)                (* line 407 *)
| AwaitFinalDoc (scamAnalysis : Classification) (* line 410 *).

(** What [handleSendMessage] reads and writes, the message collection of
    the signed-in user, and the activations of the function that are
    suspended at an [await].

    The callback closes over the constants [userId] and [isSendingMessage]
    of the render that built it (line 388; it is rebuilt when they change,
    line 426), so these two fields hold the values of the last render.
    [setIsSendingMessage] and [setError] write the state: [sendingState] is
    the state behind [isSendingMessage], which the next render reads, and
    [error] is the state set by [setError]. *)
Record Chat : Type := {
  userId : option string;
  isSendingMessage : bool;
  sendingState : bool;
  error : string;
  collection : list DocData;
  inFlight : list Await
}.

Inductive Event : Type :=
| Submit (input : string)
    (* [handleSendMessage(input)] is called *)
| AddDocSettled (k : nat) (fulfilled : bool)
    (* the [addDoc] promise awaited by activation [k] settles *)
| AnalysisSettled (k : nat) (fetched : FetchOutcome)
    (* the call of [checkMessageForScam] by activation [k] completes *)
| Rendered
    (* the component renders again: the callback is rebuilt on the state *).

(** [!userId] is false for a non-empty string only. *)
Definition noUser (u : option string) : bool :=
  match u with
  | Some (String _ _) => false
  | _ => true
  end.

Fixpoint removeAt {A : Type} (k : nat) (l : list A) : list A :=
  match k, l with
  | _, [] => []
  | O, _ :: l' => l'
  | S k', x :: l' => x :: removeAt k' l'
  end.

Fixpoint replaceAt {A : Type} (k : nat) (y : A) (l : list A) : list A :=
  match k, l with
  | _, [] => []
  | O, _ :: l' => y :: l'
  | S k', x :: l' => x :: replaceAt k' y l'
  end.

(** Activation [k] goes on to its next [await], after appending [added]. *)
Definition continue (s : Chat) (k : nat) (added : list DocData) (next : Await)
  : Chat :=
  {| userId := userId s;
     isSendingMessage := isSendingMessage s;
     sendingState := sendingState s;
     error := error s;
     collection := collection s ++ added;
     inFlight := replaceAt k next (inFlight s) |}.

(** Activation [k] ends normally after appending [added]: the [finally]
    block runs. *)
Definition complete (s : Chat) (k : nat) (added : list DocData) : Chat :=
  {| userId := userId s;
     isSendingMessage := isSendingMessage s;
     sendingState := false;
     error := error s;
     collection := collection s ++ added;
     inFlight := removeAt k (inFlight s) |}.

(** An awaited [addDoc] of activation [k] rejects: the [catch] block, then
    the [finally] block. *)
Definition abort (s : Chat) (k : nat) : Chat :=
  {| userId := userId s;
     isSendingMessage := isSendingMessage s;
     sendingState := false;
     error := "Failed to send message. Please try again.";
     collection := collection s;
     inFlight := removeAt k (inFlight s) |}.

(** Lines 388-390: the guard on the constants of the last render, then
    [setIsSendingMessage(true)] and the first [addDoc]. *)
Definition handleSendMessage (s : Chat) (input : string) : Chat :=
  if noUser (userId s) || isSendingMessage s then s
  else
    {| userId := userId s;
       isSendingMessage := isSendingMessage s;
       sendingState := true;
       error := error s;
       collection := collection s;
       inFlight := inFlight s ++ [AwaitUserDoc input] |}.

(** A render: the new callback closes over the current state. *)
Definition render (s : Chat) : Chat :=
  {| userId := userId s;
     isSendingMessage := sendingState s;
     sendingState := sendingState s;
     error := error s;
     collection := collection s;
     inFlight := inFlight s |}.

(** Activation [k], suspended at [a], resumes on an event. *)
Definition resume (s : Chat) (k : nat) (a : Await) (e : Event) : Chat :=
  match a, e with
  | AwaitUserDoc input, AddDocSettled _ true =>
      continue s k [userDoc input] (AwaitPlaceholderDoc input)
  | AwaitPlaceholderDoc input, AddDocSettled _ true =>
      continue s k [placeholderDoc] (AwaitAnalysis input)
  | AwaitAnalysis _, AnalysisSettled _ fetched =>
      continue s k [] (AwaitFinalDoc (checkMessageForScam fetched))
  | AwaitFinalDoc scamAnalysis, AddDocSettled _ true =>
      complete s k [finalDoc scamAnalysis]
  | AwaitUserDoc _, AddDocSettled _ false
  | AwaitPlaceholderDoc _, AddDocSettled _ false
  | AwaitFinalDoc _, AddDocSettled _ false =>
      abort s k
  | _, _ => s
  end.

Definition step (s : Chat) (e : Event) : Chat :=
  match e with
  | Submit input => handleSendMessage s input
  | AddDocSettled k _ | AnalysisSettled k _ =>
      match nth_error (inFlight s) k with
      | Some a => resume s k a e
      | None => s
      end
  | Rendered => render s
  end.

Definition run (s : Chat) (events : list Event) : Chat :=
  fold_left step events s.

(** A component that has not yet been used: nobody is sending. *)
Definition idle (s : Chat) : Prop :=
  isSendingMessage s = false /\ inFlight s = [].

(** The callback is up to date: the component has rendered since the last
    change of the state. *)
Definition upToDate (s : Chat) : Prop :=
  isSendingMessage s = sendingState s.

(** A run in which the component has rendered before each submission, as
    when every state change is flushed before the next event is handled. *)
Fixpoint scheduled (s : Chat) (events : list Event) : Prop :=
  match events with
  | [] => True
  | e :: rest =>
      match e with
      | Submit _ => upToDate s
      | _ => True
      end /\ scheduled (step s e) rest
  end.

(** Every event followed by a render. *)
Definition flushed (events : list Event) : list Event :=
  flat_map (fun e => [e; Rendered]) events.

(** The events of one turn whose three appends succeed. *)
Definition turn (input : string) (fetched : FetchOutcome) : list Event :=
  [Submit input; AddDocSettled 0 true; AddDocSettled 0 true;
   AnalysisSettled 0 fetched; AddDocSettled 0 true].

(* ================================================================== *)
(** ** The message bubble: [MessageItem] *)
(* ================================================================== *)

(** The decimal numeral of an integer. *)
Definition decimal (z : Z) : string := NilEmpty.string_of_int (Z.to_int z).

Definition digitCount (a : Z) : Z := Z.of_nat (String.length (decimal a)).

(** [Number::toString] prints the shortest digit string that reads back as
    the same double, the closest one if several do.  [shortestFrom] tries
    [k] significant digits, then [k + 1], and returns the value of the
    digit string found. *)
Fixpoint shortestFrom (fuel : nat) (a digits k : Z) : Z :=
  match fuel with
  | O => a
  | S fuel' =>
      let p := 10 ^ (digits - k) in
      let lo := (a / p) * p in
      let hi := lo + p in
      let okLo := (0 <? lo) && (roundToDouble lo =? a) in
      let okHi := roundToDouble hi =? a in
      if okLo && okHi then
        if a - lo <? hi - a then lo
        else if hi - a <? a - lo then hi
        else if Z.even (lo / p) then lo else hi
      else if okLo then lo
      else if okHi then hi
      else shortestFrom fuel' a digits (k + 1)
  end.

Definition shortest (a : Z) : Z :=
  shortestFrom (Z.to_nat (digitCount a)) a (digitCount a) 1.

Fixpoint stripZeros (fuel : nat) (c : Z) : Z :=
  match fuel with
  | O => c
  | S fuel' => if c mod 10 =? 0 then stripZeros fuel' (c / 10) else c
  end.

(** The form [d.ddde+n] used from 1e21 on. *)
Definition exponentForm (c : Z) : string :=
  let exponent := decimal (digitCount c - 1) in
  match decimal (stripZeros (Z.to_nat (digitCount c)) c) with
  | String d EmptyString => String d ("e+" ++ exponent)
  | String d rest => String d ("." ++ rest ++ "e+" ++ exponent)
  | EmptyString => EmptyString
  end.

(** [`${n}`] for a number.  Below 2^53 in absolute value the shortest digit
    string of an integer is its numeral. *)
Definition numberToString (x : JsNumber) : string :=
  match x with
  | Infinity false => "Infinity"
  | Infinity true => "-Infinity"
  | Finite z =>
      if Z.log2 (Z.abs z) <? 53 then decimal z
      else
        let c := shortest (Z.abs z) in
        (if z <? 0 then "-" else "")
        ++ (if c <? 10 ^ 21 then decimal c else exponentForm c)
  end.

(** [`${x}`] for a number that may be [undefined]. *)
Definition templateNumber (x : option JsNumber) : string :=
  match x with
  | Some n => numberToString n
  | None => "undefined"
  end.

(** [level === s] for an optional string. *)
Definition levelIs (level : option string) (s : string) : bool :=
  match level with
  | Some l => String.eqb l s
  | None => false
  end.

Definition getScamIndicatorColor (level : option string) : string :=
  if levelIs level "HIGHLY_LIKELY_SCAM"
  then "border-red-500 bg-red-900 bg-opacity-30 scam-glow"
  else if levelIs level "POTENTIAL_SCAM"
  then "border-yellow-500 bg-yellow-900 bg-opacity-30 potential-scam-glow"
  else "border-gray-600 bg-gray-700 bg-opacity-30".

Definition getScamTextColor (level : option string) : string :=
  if levelIs level "HIGHLY_LIKELY_SCAM" then "text-red-400"
  else if levelIs level "POTENTIAL_SCAM" then "text-yellow-400"
  else "text-gray-400".

(** The three emoji of [getScamIcon]; they lie outside the code units of
    the string model and are kept as names. *)
Inductive Icon : Type := PoliceLight | WarningSign | CheckMark.

Definition getScamIcon (level : option string) : Icon :=
  if levelIs level "HIGHLY_LIKELY_SCAM" then PoliceLight
  else if levelIs level "POTENTIAL_SCAM" then WarningSign
  else CheckMark.

Definition getScamTitle (level : option string) (percentage : option JsNumber)
  : string :=
  if levelIs level "HIGHLY_LIKELY_SCAM"
  then "HIGHLY LIKELY SCAM! (" ++ templateNumber percentage ++ "% confidence)"
  else if levelIs level "POTENTIAL_SCAM"
  then "POTENTIAL SCAM (" ++ templateNumber percentage ++ "% confidence)"
  else "SAFE (" ++ templateNumber percentage ++ "% confidence)".

Definition getPercentageBarColor (level : option string) : string :=
  if levelIs level "HIGHLY_LIKELY_SCAM" then "bg-red-500"
  else if levelIs level "POTENTIAL_SCAM" then "bg-yellow-500"
  else "bg-green-500".

(** The optional fields of [msg]. *)
Definition msgIsScam (msg : Message) : option bool :=
  option_map isScam (analysis (data msg)).
Definition msgScamLevel (msg : Message) : option string :=
  option_map scamLevel (analysis (data msg)).
Definition msgScamPercentage (msg : Message) : option JsNumber :=
  option_map scamPercentage (analysis (data msg)).
Definition msgScamWarning (msg : Message) : option string :=
  option_map scamWarning (analysis (data msg)).

(** Truthiness of an optional boolean and of an optional string. *)
Definition truthyBool (b : option bool) : bool :=
  match b with
  | Some true => true
  | _ => false
  end.

Definition truthyString (s : option string) : bool :=
  match s with
  | Some (String _ _) => true
  | _ => false
  end.

(** What the warning box of lines 210-235 shows. *)
Record ScamPanel : Type := {
  indicatorColor : string;
  textColor : string;
  icon : Icon;
  title : string;
  bar : option (string * string);   (* colour class and [width] style *)
  warning : option string
}.

(** The box is rendered under [msg.isScam && msg.scamLevel], the bar under
    [msg.scamPercentage !== undefined]. *)
Definition scamPanel (msg : Message) : option ScamPanel :=
  if truthyBool (msgIsScam msg) && truthyString (msgScamLevel msg) then
    Some {| indicatorColor := getScamIndicatorColor (msgScamLevel msg);
            textColor := getScamTextColor (msgScamLevel msg);
            icon := getScamIcon (msgScamLevel msg);
            title := getScamTitle (msgScamLevel msg) (msgScamPercentage msg);
            bar := match msgScamPercentage msg with
                   | Some n => Some (getPercentageBarColor (msgScamLevel msg),
                                     numberToString n ++ "%")
                   | None => None
                   end;
            warning := msgScamWarning msg |}
  else None.

(* ================================================================== *)
(** ** The input form: [MessageInput] *)
(* ================================================================== *)

(** [handleSubmit] of lines 277-283 on the [text] of the form: the argument
    passed to [onSendMessage], if it is called, and the new [text]. *)
Definition handleSubmit (input : string) : option string * string :=
  match trim input with
  | EmptyString => (None, input)
  | _ => (Some (trim input), EmptyString)
  end.

(** [disabled] of the send button, line 320. *)
Definition sendDisabled (isLoading : bool) (input : string) : bool :=
  isLoading || match trim input with
               | EmptyString => true
               | _ => false
               end.

(** The form wired to the component as in line 491: [onSendMessage] is
    [handleSendMessage]. *)
Definition submitForm (s : Chat) (input : string) : Chat * string :=
  match fst (handleSubmit input) with
  | Some sent => (handleSendMessage s sent, snd (handleSubmit input))
  | None => (s, snd (handleSubmit input))
  end.

(* ================================================================== *)
(** ** The component: [Chat] *)
(* ================================================================== *)

(** The component, lines 338-344.  [chat] is the part used by the
    workflow, with the constants [userId] and [isSendingMessage] of the
    last render; [userIdState], [isAuthReady], [messages],
    [isLoadingMessages] and [showSplashScreen] are states.  [listening]
    and [formOnScreen] record what the last render left behind: whether
    its effect subscribed to the collection, and whether it showed the
    form with the text area enabled. *)
Record App : Type := {
  chat : Chat;
  userIdState : option string;
  isAuthReady : bool;
  messages : list Message;
  isLoadingMessages : bool;
  showSplashScreen : bool;
  listening : bool;
  formOnScreen : bool
}.

(** The initial values of the [useState] calls, before the first render;
    [stored] is what the collection of the user holds when the page is
    opened. *)
Definition initialApp (stored : list DocData) : App :=
  {| chat := {| userId := None;
                isSendingMessage := false;
                sendingState := false;
                error := EmptyString;
                collection := stored;
                inFlight := [] |};
     userIdState := None;
     isAuthReady := false;
     messages := [];
     isLoadingMessages := true;
     showSplashScreen := true;
     listening := false;
     formOnScreen := false |}.

Inductive AppEvent : Type :=
| AuthStateChanged (uid : option string)
    (* the callback of [onAuthStateChanged], with [user.uid] or no user *)
| SignInRejected
    (* [signInAnonymously] rejects *)
| Snapshot (docs : list Message)
    (* the listener of [onSnapshot] receives the documents *)
| SnapshotError
    (* the error callback of [onSnapshot] *)
| SplashFinished
    (* [onFinished] of the splash screen *)
| FormSubmitted (input : string)
    (* [handleSubmit] of the form on the screen, with its text *)
| Settled (e : Event)
    (* a promise awaited by [handleSendMessage] settles *)
| AppRendered
    (* the component renders again and its effects run *).

Definition withChat (s : App) (c : Chat) : App :=
  {| chat := c;
     userIdState := userIdState s;
     isAuthReady := isAuthReady s;
     messages := messages s;
     isLoadingMessages := isLoadingMessages s;
     showSplashScreen := showSplashScreen s;
     listening := listening s;
     formOnScreen := formOnScreen s |}.

Definition setError (c : Chat) (message : string) : Chat :=
  {| userId := userId c;
     isSendingMessage := isSendingMessage c;
     sendingState := sendingState c;
     error := message;
     collection := collection c;
     inFlight := inFlight c |}.

(** The effect of lines 366-385 subscribes exactly when
    [userId && isAuthReady]. *)
Definition subscribes (s : App) : bool :=
  negb (noUser (userIdState s)) && isAuthReady s.

(** What the component renders, lines 428-510. *)
Inductive View : Type :=
| SplashView
| ErrorView (message : string)
| LoadingView
| ConversationView (shown : list Message) (isLoading : bool).

Section Render.
Variable toDouble : Q -> Q.

(** What a render of the current state returns. *)
Definition view (s : App) : View :=
  if showSplashScreen s then SplashView
  else match error (chat s) with
       | String _ _ => ErrorView (error (chat s))
       | EmptyString =>
           if isLoadingMessages s then LoadingView
           else ConversationView (sortedMessages toDouble (messages s))
                                 (sendingState (chat s))
       end.
End Render.

(** A render of the current state shows the form with its text area
    enabled. *)
Definition formEnabled (s : App) : bool :=
  negb (showSplashScreen s)
  && match error (chat s) with
     | EmptyString => true
     | String _ _ => false
     end
  && negb (isLoadingMessages s)
  && negb (sendingState (chat s)).

(** A render: the callback, the effect and the form are rebuilt on the
    current state. *)
Definition appRender (s : App) : App :=
  {| chat := {| userId := userIdState s;
                isSendingMessage := sendingState (chat s);
                sendingState := sendingState (chat s);
                error := error (chat s);
                collection := collection (chat s);
                inFlight := inFlight (chat s) |};
     userIdState := userIdState s;
     isAuthReady := isAuthReady s;
     messages := messages s;
     isLoadingMessages := isLoadingMessages s;
     showSplashScreen := showSplashScreen s;
     listening := subscribes s;
     formOnScreen := formEnabled s |}.

Definition appStep (s : App) (e : AppEvent) : App :=
  match e with
  | AuthStateChanged (Some uid) =>
      {| chat := chat s;
         userIdState := Some uid;
         isAuthReady := true;
         messages := messages s;
         isLoadingMessages := isLoadingMessages s;
         showSplashScreen := showSplashScreen s;
         listening := listening s;
         formOnScreen := formOnScreen s |}
  | AuthStateChanged None => s
  | SignInRejected =>
      withChat s (setError (chat s)
                    "Failed to authenticate. Please refresh the page.")
  | Snapshot docs =>
      if listening s then
        {| chat := chat s;
           userIdState := userIdState s;
           isAuthReady := isAuthReady s;
           messages := docs;
           isLoadingMessages := false;
           showSplashScreen := showSplashScreen s;
           listening := listening s;
           formOnScreen := formOnScreen s |}
      else s
  | SnapshotError =>
      if listening s then
        {| chat := setError (chat s)
                     "Failed to load messages. Please refresh the page.";
           userIdState := userIdState s;
           isAuthReady := isAuthReady s;
           messages := messages s;
           isLoadingMessages := false;
           showSplashScreen := showSplashScreen s;
           listening := listening s;
           formOnScreen := formOnScreen s |}
      else s
  | SplashFinished =>
      {| chat := chat s;
         userIdState := userIdState s;
         isAuthReady := isAuthReady s;
         messages := messages s;
         isLoadingMessages := isLoadingMessages s;
         showSplashScreen := false;
         listening := listening s;
         formOnScreen := formOnScreen s |}
  | FormSubmitted input =>
      if formOnScreen s then withChat s (fst (submitForm (chat s) input))
      else s
  | Settled (AddDocSettled k fulfilled) =>
      withChat s (step (chat s) (AddDocSettled k fulfilled))
  | Settled (AnalysisSettled k fetched) =>
      withChat s (step (chat s) (AnalysisSettled k fetched))
  | Settled _ => s
  | AppRendered => appRender s
  end.

Definition runApp (s : App) (events : list AppEvent) : App :=
  fold_left appStep events s.

(** The identifier of a signed-in user is not empty. *)
Definition uidPresent (e : AppEvent) : Prop :=
  match e with
  | AuthStateChanged (Some EmptyString) => False
  | _ => True
  end.

(* ================================================================== *)
(** ** Notions used to state the properties *)
(* ================================================================== *)

(** The characters 0 to 9. *)
Definition isDigitChar (c : ascii) : bool :=
  existsb (Ascii.eqb c) ["0"; "1"; "2"; "3"; "4"; "5"; "6"; "7"; "8"; "9"]%char.

(** The longest run of characters 0 to 9 that a text starts with. *)
Fixpoint digitRun (s : string) : string :=
  match s with
  | EmptyString => EmptyString
  | String c s' => if isDigitChar c then String c (digitRun s') else EmptyString
  end.

(** A text without its leading sign, and whether that sign is a minus. *)
Definition unsigned (s : string) : string :=
  match s with
  | EmptyString => EmptyString
  | String c rest => if Ascii.eqb c "-" || Ascii.eqb c "+" then rest else s
  end.

Definition isNegative (s : string) : bool :=
  match s with
  | EmptyString => false
  | String c _ => Ascii.eqb c "-"
  end.

(** The decimal reading of a trimmed segment: an optional sign, then the
    longest run of decimal digits, at least one, read as a numeral of the
    standard library.  This is the "numeric prefix" of a segment such as
    [12abc]; it is what [parseInt] is compared with, and is not part of
    the code. *)
Definition decimalPrefix (s : string) : option Z :=
  match NilEmpty.uint_of_string (digitRun (unsigned s)) with
  | Some Decimal.Nil => None
  | Some d => Some (if isNegative s then - Z.of_uint d else Z.of_uint d)
  | None => None
  end.

(** The digits of the segment, after the sign, start with [0x] or [0X]. *)
Definition hasHexPrefix (s : string) : bool :=
  match unsigned s with
  | String c0 (String c1 _) =>
      Ascii.eqb c0 "0" && (Ascii.eqb c1 "x" || Ascii.eqb c1 "X")
  | _ => false
  end.

(** The integers that every double arithmetic keeps exact: up to
    2^53 - 1 in absolute value. *)
Definition isSafeInteger (n : Z) : Prop := Z.abs n <= 9007199254740991.

(** The relation between [scamLevel] and [isScam]: [isScam] is
    [level <> SAFE] on the three levels of the model and false on [UNKNOWN]
    and [ERROR]; no other level occurs. *)
Definition levelAgrees (c : Classification) : Prop :=
  (scamLevel c = "SAFE" /\ isScam c = false) \/
  (scamLevel c = "POTENTIAL_SCAM" /\ isScam c = true) \/
  (scamLevel c = "HIGHLY_LIKELY_SCAM" /\ isScam c = true) \/
  (scamLevel c = "UNKNOWN" /\ isScam c = false) \/
  (scamLevel c = "ERROR" /\ isScam c = false).

(** A response with status 403 and an error body. *)
Definition forbidden : FetchOutcome :=
  Return {| ok := false;
            statusText := "Forbidden";
            json := Return {| error_message := Some "API key not valid";
                              candidates := None |} |}.


(** A signed-in component with an empty collection. *)
Definition signedIn : Chat :=
  {| userId := Some "uid-1";
     isSendingMessage := false;
     sendingState := false;
     error := "";
     collection := [];
     inFlight := [] |}.

(** Every character of the text is white space. *)
Fixpoint allWhiteSpace (s : string) : bool :=
  match s with
  | EmptyString => true
  | String c s' => isWhiteSpace c && allWhiteSpace s'
  end.

(** The text starts, or ends, with a white space character. *)
Definition headWhite (s : string) : bool :=
  match s with
  | EmptyString => false
  | String c _ => isWhiteSpace c
  end.

Fixpoint lastWhite (s : string) : bool :=
  match s with
  | EmptyString => false
  | String c EmptyString => isWhiteSpace c
  | String _ s' => lastWhite s'
  end.

(** The documents that one turn leaves in the collection: the user's
    document alone, with the placeholder, or with the placeholder and the
    final document, whose classification is a result of the classifier. *)
Inductive TurnDocs : list DocData -> Prop :=
| turn_user : forall input,
    TurnDocs [userDoc input]
| turn_placeholder : forall input,
    TurnDocs [userDoc input; placeholderDoc]
| turn_final : forall input fetched,
    TurnDocs [userDoc input; placeholderDoc;
              finalDoc (checkMessageForScam fetched)].

(** A collection made of the documents of successive turns. *)
Inductive Grouped : list DocData -> Prop :=
| grouped_nil : Grouped []
| grouped_turn : forall earlier docs,
    Grouped earlier -> TurnDocs docs -> Grouped (earlier ++ docs)%list.

(** The documents already appended by an activation suspended at [a]. *)
Inductive Appended : Await -> list DocData -> Prop :=
| appended_none : forall input,
    Appended (AwaitUserDoc input) []
| appended_user : forall input,
    Appended (AwaitPlaceholderDoc input) [userDoc input]
| appended_placeholder : forall input,
    Appended (AwaitAnalysis input) [userDoc input; placeholderDoc]
| appended_analysed : forall input fetched,
    Appended (AwaitFinalDoc (checkMessageForScam fetched))
             [userDoc input; placeholderDoc].

(** The collection is grouped, up to the documents of the turn in flight. *)
Definition groupedSoFar (s : Chat) : Prop :=
  exists earlier,
    Grouped earlier /\
    ((inFlight s = [] /\ collection s = earlier) \/
     (sendingState s = true /\
      exists a docs, inFlight s = [a] /\ Appended a docs /\
                     collection s = (earlier ++ docs)%list)).

(** The events of a turn whose append number [k] (from 0) is rejected. *)
Definition failingTurn (k : nat) (input : string) (fetched : FetchOutcome)
  : list Event :=
  match k with
  | 0%nat => [Submit input; AddDocSettled 0 false]
  | 1%nat => [Submit input; AddDocSettled 0 true; AddDocSettled 0 false]
  | _ => [Submit input; AddDocSettled 0 true; AddDocSettled 0 true;
          AnalysisSettled 0 fetched; AddDocSettled 0 false]
  end.

(** A message that carries the given analysis. *)
Definition analysed (i : string) (t : option Timestamp) (c : Classification)
  : Message :=
  {| id := i; data := finalDoc c; timestamp := t |}.

(** A success response whose first completion is the given text. *)
Definition answered (rawText : string) : FetchOutcome :=
  Return {| ok := true;
            statusText := "OK";
            json := Return
              {| error_message := None;
                 candidates := Some
                   [ {| content := Some
                          {| parts := Some
                               [ {| part_text := TextString rawText |} ] |} |} ] |} |}.

(** A document of the user, and a document that carries an analysis. *)
Definition fromUser (d : DocData) : bool :=
  match sender d with
  | user => true
  | ai => false
  end.

Definition hasAnalysis (d : DocData) : bool :=
  match analysis d with
  | Some _ => true
  | None => false
  end.

(** A stored analysis belongs to a document of the assistant and relates
    level and [isScam] as the classifier does. *)
Definition analysisWellFormed (d : DocData) : Prop :=
  match analysis d with
  | Some c => sender d = ai /\ levelAgrees c
  | None => True
  end.

(** The characters of a decimal numeral. *)
Definition isDecimalDigit (c : ascii) : bool :=
  match digitValue 10 c with
  | Some _ => true
  | None => false
  end.

Fixpoint allDigits (s : string) : bool :=
  match s with
  | EmptyString => true
  | String c s' => isDecimalDigit c && allDigits s'
  end.

(** The answer format that the prompt asks for, line 39:
    [LEVEL|PERCENTAGE|EXPLANATION]. *)
Definition formatAnswer (level : string) (n : Z) (explanation : string)
  : string :=
  level ++ "|" ++ numberToString n ++ "|" ++ explanation.

(** The box of a message classified HIGHLY_LIKELY_SCAM at 150 percent. *)
Definition overTheTopPanel : ScamPanel :=
  {| indicatorColor := "border-red-500 bg-red-900 bg-opacity-30 scam-glow";
     textColor := "text-red-400";
     icon := PoliceLight;
     title := "HIGHLY LIKELY SCAM! (150% confidence)";
     bar := Some ("bg-red-500", "150%");
     warning := Some "Lottery." |}.

(** What holds of the component in every state: a user is signed in
    whenever the messages are loaded or a listener is installed, and the
    callback of a form that is on the screen has a user and sees nothing
    being sent. *)
Definition appInvariant (s : App) : Prop :=
  (isLoadingMessages s = false -> noUser (userIdState s) = false) /\
  (listening s = true -> noUser (userIdState s) = false) /\
  (formOnScreen s = true ->
   noUser (userId (chat s)) = false /\ isSendingMessage (chat s) = false).

(** A session: sign-in, first snapshot, end of the splash screen. *)
Definition opening : list AppEvent :=
  [AppRendered; AuthStateChanged None; AuthStateChanged (Some "uid-1");
   AppRendered; Snapshot []; SplashFinished; AppRendered].

(** What an activation suspended at [a] may still append after its user
    document: documents with an analysis, and documents in all. *)
Definition owedAnalyses (a : Await) : nat :=
  match a with
  | AwaitUserDoc _ => 0
  | _ => 1
  end.

Definition owedDocuments (a : Await) : nat :=
  match a with
  | AwaitUserDoc _ => 0
  | AwaitPlaceholderDoc _ => 2
  | _ => 1
  end.

Definition pendingWellFormed (a : Await) : Prop :=
  match a with
  | AwaitFinalDoc c => levelAgrees c
  | _ => True
  end.

(** The documents of the collection and what the activations in flight
    may still append stay within what the user documents allow. *)
Definition accounted (s : Chat) : Prop :=
  (List.length (filter hasAnalysis (collection s))
   + list_sum (map owedAnalyses (inFlight s))
   <= List.length (filter fromUser (collection s)))%nat /\
  (List.length (collection s) + list_sum (map owedDocuments (inFlight s))
   <= 3 * List.length (filter fromUser (collection s)))%nat /\
  Forall analysisWellFormed (collection s) /\
  Forall pendingWellFormed (inFlight s).

(** A message with the given identifier and timestamp. *)
Definition messageAt (i : string) (t : option Timestamp) : Message :=
  {| id := i; data := userDoc i; timestamp := t |}.

Definition atSecond (n : Z) : option Timestamp :=
  Some {| seconds := n; nanoseconds := 0 |}.


(** Three messages of different times, in two orders of delivery. *)
Definition delivered : list Message :=
  [messageAt "a" (atSecond 5); messageAt "b" None; messageAt "c" (atSecond 2)].

Definition deliveredOtherwise : list Message :=
  [messageAt "c" (atSecond 2); messageAt "a" (atSecond 5); messageAt "b" None].

(* ================================================================== *)
(** ** Properties of the string primitives *)
(* ================================================================== *)


Lemma split_length (sep : ascii) (s : string) :
  List.length (split sep s) = S (count sep s).
Proof.
  induction s as [|c s IH]; simpl; [reflexivity|].
  destruct (Ascii.eqb c sep); simpl.
  - now rewrite IH.
  - destruct (split sep s) as [|piece rest]; simpl in *; [discriminate|exact IH].
Qed.

(** The pieces after the first [n] are the pieces of the remainder after the
    first [n] separators. *)
Lemma split_remainder (sep : ascii) (n : nat) :
  forall s r,
    remainderAfter n sep s = Some r ->
    skipn n (split sep s) = split sep r.
Proof.
  induction n as [|n IHn]; intros s r H.
  - destruct s; simpl in H; injection H as <-; reflexivity.
  - induction s as [|c s IHs]; simpl in H; [discriminate|].
    simpl split.
    destruct (Ascii.eqb c sep).
    + simpl. now apply IHn.
    + specialize (IHs H).
      destruct (split sep s) as [|piece rest]; simpl in *.
      * destruct n; exact IHs.
      * exact IHs.
Qed.

Lemma remainder_defined (sep : ascii) (n : nat) :
  forall s, (n <= count sep s)%nat -> exists r, remainderAfter n sep s = Some r.
Proof.
  induction n as [|n IHn]; intros s H.
  - exists s. destruct s; reflexivity.
  - induction s as [|c s IHs]; simpl in *; [lia|].
    destruct (Ascii.eqb c sep).
    + apply IHn. lia.
    + apply IHs. exact H.
Qed.

Lemma includes_validLevels (level : string) :
  includes validLevels level = true ->
  level = "SAFE" \/ level = "POTENTIAL_SCAM" \/ level = "HIGHLY_LIKELY_SCAM".
Proof.
  unfold validLevels; cbn [includes].
  rewrite !orb_true_iff, !String.eqb_eq.
  intros [H|[H|[H|H]]]; auto; discriminate.
Qed.

(** The shape of the result of [parseRawText]: either the fallback, or the
    object built from the three trimmed pieces. *)
Lemma parseRawText_cases (rawText : string) :
  parseRawText rawText = unknownResult \/
  exists pct,
    (3 <= List.length (split "|" rawText))%nat /\
    includes validLevels (trim (nth 0 (split "|" rawText) "")) = true /\
    parseInt (trim (nth 1 (split "|" rawText) "")) = Some pct /\
    parseRawText rawText =
      {| isScam := negb (String.eqb (trim (nth 0 (split "|" rawText) "")) "SAFE");
         scamLevel := trim (nth 0 (split "|" rawText) "");
         scamPercentage := pct;
         scamWarning := or_else (trim (nth 2 (split "|" rawText) ""))
                                "No specific reason provided." |}.
Proof.
  unfold parseRawText.
  destruct (3 <=? List.length (split "|" rawText))%nat eqn:Hlen; [|now left].
  destruct (includes validLevels (trim (nth 0 (split "|" rawText) ""))) eqn:Hlvl;
    [|now left].
  destruct (parseInt (trim (nth 1 (split "|" rawText) ""))) as [pct|] eqn:Hpct;
    [|now left].
  right. exists pct. apply Nat.leb_le in Hlen. simpl. auto.
Qed.

Lemma parseRawText_valid (rawText : string) (pct : JsNumber) :
  (3 <= List.length (split "|" rawText))%nat ->
  includes validLevels (trim (nth 0 (split "|" rawText) "")) = true ->
  parseInt (trim (nth 1 (split "|" rawText) "")) = Some pct ->
  parseRawText rawText =
    {| isScam := negb (String.eqb (trim (nth 0 (split "|" rawText) "")) "SAFE");
       scamLevel := trim (nth 0 (split "|" rawText) "");
       scamPercentage := pct;
       scamWarning := or_else (trim (nth 2 (split "|" rawText) ""))
                              "No specific reason provided." |}.
Proof.
  intros Hlen Hlvl Hpct. unfold parseRawText.
  apply Nat.leb_le in Hlen. rewrite Hlen, Hlvl, Hpct. reflexivity.
Qed.

Lemma trimStart_headWhite (s : string) : headWhite (trimStart s) = false.
Proof.
  induction s as [|c s IH]; simpl; [reflexivity|].
  destruct (isWhiteSpace c) eqn:Hc; [exact IH|]. simpl. exact Hc.
Qed.

Lemma trimEnd_lastWhite (s : string) : lastWhite (trimEnd s) = false.
Proof.
  induction s as [|c s IH]; [reflexivity|].
  cbn [trimEnd]. destruct (trimEnd s) as [|c' t] eqn:Ht.
  - destruct (isWhiteSpace c) eqn:Hc; simpl; [reflexivity|exact Hc].
  - exact IH.
Qed.

Lemma trimEnd_headWhite (s : string) :
  headWhite s = false -> headWhite (trimEnd s) = false.
Proof.
  destruct s as [|c s]; [reflexivity|].
  cbn [headWhite trimEnd]. intros Hc.
  destruct (trimEnd s); [rewrite Hc|]; simpl; exact Hc.
Qed.

Lemma trimStart_fixed (s : string) : headWhite s = false -> trimStart s = s.
Proof.
  destruct s as [|c s]; [reflexivity|]. simpl. now intros ->.
Qed.

Lemma trimEnd_fixed (s : string) : lastWhite s = false -> trimEnd s = s.
Proof.
  induction s as [|c s IH]; [reflexivity|].
  cbn [trimEnd]. destruct s as [|c' s'].
  - simpl. now intros ->.
  - intros H. rewrite IH; [reflexivity|exact H].
Qed.

Lemma trim_headWhite (s : string) : headWhite (trim s) = false.
Proof. apply trimEnd_headWhite, trimStart_headWhite. Qed.

Lemma trim_lastWhite (s : string) : lastWhite (trim s) = false.
Proof. apply trimEnd_lastWhite. Qed.

Lemma trim_fixed (s : string) :
  headWhite s = false -> lastWhite s = false -> trim s = s.
Proof.
  intros Hh Hl. unfold trim. rewrite (trimStart_fixed s Hh).
  now apply trimEnd_fixed.
Qed.

Lemma trim_idempotent (s : string) : trim (trim s) = trim s.
Proof. apply trim_fixed; [apply trim_headWhite|apply trim_lastWhite]. Qed.

Lemma trimEnd_allWhite (s : string) :
  allWhiteSpace s = true -> trimEnd s = EmptyString.
Proof.
  induction s as [|c s IH]; [reflexivity|].
  cbn [allWhiteSpace trimEnd]. intros H. apply andb_true_iff in H as [Hc Hs].
  rewrite (IH Hs), Hc. reflexivity.
Qed.

Lemma trim_blank (s : string) :
  allWhiteSpace s = true -> trim s = EmptyString.
Proof.
  unfold trim. induction s as [|c s IH]; [reflexivity|].
  cbn [allWhiteSpace trimStart]. intros H. apply andb_true_iff in H as [Hc Hs].
  rewrite Hc. now apply IH.
Qed.

Lemma trim_not_blank (s : string) :
  allWhiteSpace s = false -> trim s <> EmptyString.
Proof.
  unfold trim. induction s as [|c s IH]; [discriminate|].
  cbn [allWhiteSpace trimStart]. destruct (isWhiteSpace c) eqn:Hc.
  - exact IH.
  - intros _. cbn [trimEnd]. destruct (trimEnd s); [rewrite Hc|]; discriminate.
Qed.

Lemma split_without_separator (sep : ascii) (s : string) :
  count sep s = 0%nat -> split sep s = [s].
Proof.
  induction s as [|c s IH]; [reflexivity|].
  cbn [count split]. destruct (Ascii.eqb c sep); [discriminate|].
  intros H. rewrite (IH H). reflexivity.
Qed.

Lemma split_first_piece (sep : ascii) (a b : string) :
  count sep a = 0%nat ->
  split sep (a ++ String sep b) = a :: split sep b.
Proof.
  induction a as [|c a IH]; cbn [count append split].
  - intros _. rewrite Ascii.eqb_refl. reflexivity.
  - destruct (Ascii.eqb c sep); [discriminate|].
    intros H. rewrite (IH H). reflexivity.
Qed.

Lemma string_of_uint_allDigits (d : Decimal.uint) :
  allDigits (NilEmpty.string_of_uint d) = true.
Proof. induction d; cbn [NilEmpty.string_of_uint allDigits]; auto. Qed.

Lemma digit_not_special (c : ascii) :
  isDecimalDigit c = true ->
  isWhiteSpace c = false /\ Ascii.eqb c "|" = false /\
  Ascii.eqb c "-" = false /\ Ascii.eqb c "+" = false /\
  Ascii.eqb c "x" = false /\ Ascii.eqb c "X" = false.
Proof.
  destruct c as [[] [] [] [] [] [] [] []]; vm_compute; intros H;
    try discriminate H; repeat split.
Qed.

Lemma allDigits_no_bar (s : string) :
  allDigits s = true -> count "|" s = 0%nat.
Proof.
  induction s as [|c s IH]; [reflexivity|].
  cbn [allDigits count]. intros H. apply andb_true_iff in H as [Hc Hs].
  destruct (digit_not_special c Hc) as (_ & -> & _). auto.
Qed.

Lemma allDigits_headWhite (s : string) :
  allDigits s = true -> headWhite s = false.
Proof.
  destruct s as [|c s]; [reflexivity|].
  cbn [allDigits headWhite]. intros H. apply andb_true_iff in H as [Hc _].
  now destruct (digit_not_special c Hc) as (-> & _).
Qed.

Lemma allDigits_lastWhite (s : string) :
  allDigits s = true -> lastWhite s = false.
Proof.
  induction s as [|c s IH]; [reflexivity|].
  cbn [allDigits]. intros H. apply andb_true_iff in H as [Hc Hs].
  destruct s as [|c' s'].
  - simpl. now destruct (digit_not_special c Hc) as (-> & _).
  - change (lastWhite (String c (String c' s')))
      with (lastWhite (String c' s')). auto.
Qed.

Lemma readDigits_accumulates (d : Decimal.uint) :
  forall acc : positive,
    readDigits 10 (NilEmpty.string_of_uint d) (Z.pos acc) true
    = Some (Z.pos (Pos.of_uint_acc d acc)).
Proof.
  induction d as [|d IH|d IH|d IH|d IH|d IH|d IH|d IH|d IH|d IH|d IH];
    intros acc; cbn [NilEmpty.string_of_uint Pos.of_uint_acc readDigits];
    [reflexivity|..];
    match goal with
    | |- context [digitValue 10 ?c] =>
        let v := eval vm_compute in (digitValue 10 c) in
        change (digitValue 10 c) with v
    end;
    cbv beta iota; rewrite <- IH; f_equal; lia.
Qed.

Lemma readDigits_numeral (d : Decimal.uint) :
  readDigits 10 (NilEmpty.string_of_uint d) 0 true
  = Some (Z.of_N (Pos.of_uint d)).
Proof.
  induction d as [|d IH|d IH|d IH|d IH|d IH|d IH|d IH|d IH|d IH|d IH];
    cbn [NilEmpty.string_of_uint Pos.of_uint readDigits];
    [reflexivity|..];
    match goal with
    | |- context [digitValue 10 ?c] =>
        let v := eval vm_compute in (digitValue 10 c) in
        change (digitValue 10 c) with v
    end;
    cbv beta iota; [exact IH|..]; apply readDigits_accumulates.
Qed.

Lemma readDigits_first (d : Decimal.uint) :
  d <> Decimal.Nil ->
  readDigits 10 (NilEmpty.string_of_uint d) 0 false
  = readDigits 10 (NilEmpty.string_of_uint d) 0 true.
Proof.
  destruct d; [congruence|..]; intros _; reflexivity.
Qed.

Lemma stripSign_digits (s : string) :
  allDigits s = true -> stripSign s = (1, s).
Proof.
  destruct s as [|c s]; [reflexivity|].
  cbn [allDigits stripSign]. intros H. apply andb_true_iff in H as [Hc _].
  destruct (digit_not_special c Hc) as (_ & _ & -> & -> & _). reflexivity.
Qed.

Lemma stripPrefix_digits (s : string) :
  allDigits s = true -> stripPrefix s = (10, s).
Proof.
  destruct s as [|c0 [|c1 s]]; try reflexivity.
  cbn [allDigits stripPrefix]. intros H.
  apply andb_true_iff in H as [_ H]. apply andb_true_iff in H as [Hc _].
  destruct (digit_not_special c1 Hc) as (_ & _ & _ & _ & -> & ->).
  rewrite andb_false_r. reflexivity.
Qed.

Lemma parseInt_digits (d : Decimal.uint) :
  d <> Decimal.Nil ->
  parseInt (NilEmpty.string_of_uint d) = Some (toNumber (Z.of_uint d)).
Proof.
  intros Hd. pose proof (string_of_uint_allDigits d) as Hdigits.
  unfold parseInt.
  rewrite (trimStart_fixed _ (allDigits_headWhite _ Hdigits)).
  rewrite (stripSign_digits _ Hdigits). cbv beta iota.
  rewrite (stripPrefix_digits _ Hdigits). cbv beta iota.
  rewrite (readDigits_first d Hd), readDigits_numeral.
  unfold Z.of_uint. now rewrite Z.mul_1_l.
Qed.

Lemma parseInt_negative_digits (d : Decimal.uint) :
  d <> Decimal.Nil ->
  parseInt (String "-" (NilEmpty.string_of_uint d))
  = Some (toNumber (- Z.of_uint d)).
Proof.
  intros Hd. pose proof (string_of_uint_allDigits d) as Hdigits.
  unfold parseInt.
  change (trimStart (String "-" (NilEmpty.string_of_uint d)))
    with (String "-" (NilEmpty.string_of_uint d)).
  change (stripSign (String "-" (NilEmpty.string_of_uint d)))
    with (-1, NilEmpty.string_of_uint d).
  cbv beta iota. rewrite (stripPrefix_digits _ Hdigits). cbv beta iota.
  rewrite (readDigits_first d Hd), readDigits_numeral.
  unfold Z.of_uint. do 2 f_equal; lia.
Qed.

Lemma to_int_shape (n : Z) :
  exists d, d <> Decimal.Nil /\
            (Z.to_int n = Decimal.Pos d \/ Z.to_int n = Decimal.Neg d).
Proof.
  destruct n as [|p|p]; cbn [Z.to_int].
  - exists (Decimal.D0 Decimal.Nil). split; [discriminate|now left].
  - exists (Pos.to_uint p). split; [apply Unsigned.to_uint_nonnil|now left].
  - exists (Pos.to_uint p). split; [apply Unsigned.to_uint_nonnil|now right].
Qed.

(** Reading the numeral of an integer gives the number value of that
    integer. *)
Lemma parseInt_decimal_numeral (n : Z) :
  parseInt (decimal n) = Some (toNumber n).
Proof.
  unfold decimal.
  rewrite <- (DecimalZ.of_to n) at 2.
  destruct (to_int_shape n) as (d & Hd & [-> | ->]);
    cbn [NilEmpty.string_of_int Z.of_int].
  - now apply parseInt_digits.
  - now apply parseInt_negative_digits.
Qed.

Lemma decimal_plain (n : Z) :
  count "|" (decimal n) = 0%nat /\ trim (decimal n) = decimal n.
Proof.
  unfold decimal.
  destruct (to_int_shape n) as (d & Hd & [-> | ->]);
    cbn [NilEmpty.string_of_int];
    pose proof (string_of_uint_allDigits d) as Hdigits.
  - split; [now apply allDigits_no_bar|].
    apply trim_fixed; [now apply allDigits_headWhite
                      |now apply allDigits_lastWhite].
  - split.
    + change (count "|" (String "-" (NilEmpty.string_of_uint d)))
        with (count "|" (NilEmpty.string_of_uint d)).
      now apply allDigits_no_bar.
    + apply trim_fixed; [reflexivity|].
      destruct (NilEmpty.string_of_uint d) as [|c s] eqn:E; [reflexivity|].
      change (lastWhite (String "-" (String c s)))
        with (lastWhite (String c s)).
      now apply allDigits_lastWhite.
Qed.

(** Safe integers are doubles, and are printed as their numerals. *)
Lemma safe_log2 (n : Z) : isSafeInteger n -> Z.log2 (Z.abs n) < 53.
Proof.
  unfold isSafeInteger. intros H.
  destruct (Z.eq_dec (Z.abs n) 0) as [E|E]; [rewrite E; reflexivity|].
  apply Z.log2_lt_pow2; [lia|].
  change (2 ^ 53) with 9007199254740992. lia.
Qed.

Lemma safe_toNumber (n : Z) : isSafeInteger n -> toNumber n = Finite n.
Proof.
  intros H. pose proof (safe_log2 n H) as Hlog.
  assert (Hround : roundToDouble n = n).
  { unfold roundToDouble.
    destruct (Z.log2 (Z.abs n) - 52 <=? 0) eqn:E; [reflexivity|].
    apply Z.leb_gt in E. lia. }
  unfold toNumber. rewrite Hround.
  destruct (Z.log2 (Z.abs n) <? 1024) eqn:E; [reflexivity|].
  apply Z.ltb_ge in E. lia.
Qed.

Lemma safe_numberToString (n : Z) :
  isSafeInteger n -> numberToString (Finite n) = decimal n.
Proof.
  intros H. pose proof (safe_log2 n H) as Hlog.
  unfold numberToString.
  destruct (Z.log2 (Z.abs n) <? 53) eqn:E; [reflexivity|].
  apply Z.ltb_ge in E. lia.
Qed.

Lemma isDigitChar_spec (c : ascii) : isDigitChar c = isDecimalDigit c.
Proof.
  destruct c as [[] [] [] [] [] [] [] []]; vm_compute; reflexivity.
Qed.

Lemma readDigits_digitRun (s : string) :
  forall acc seen,
    readDigits 10 s acc seen = readDigits 10 (digitRun s) acc seen.
Proof.
  induction s as [|c s IH]; intros acc seen; [reflexivity|].
  cbn [digitRun]. rewrite isDigitChar_spec. unfold isDecimalDigit.
  destruct (digitValue 10 c) as [v|] eqn:E; cbn [readDigits]; rewrite E.
  - apply IH.
  - reflexivity.
Qed.

Lemma digitRun_numeral (s : string) :
  exists d, NilEmpty.uint_of_string (digitRun s) = Some d /\
            NilEmpty.string_of_uint d = digitRun s.
Proof.
  assert (H : exists d, NilEmpty.uint_of_string (digitRun s) = Some d).
  { induction s as [|c s [d IH]]; [now exists Decimal.Nil|].
    cbn [digitRun]. destruct (isDigitChar c) eqn:Hc;
      [|now exists Decimal.Nil].
    cbn [NilEmpty.uint_of_string]. rewrite IH.
    unfold isDigitChar in Hc. cbn [existsb] in Hc.
    repeat (apply orb_true_iff in Hc as [Hc|Hc];
            [apply Ascii.eqb_eq in Hc; subst c; eexists; reflexivity|]).
    discriminate Hc. }
  destruct H as [d Hd]. exists d. split; [exact Hd|].
  now apply NilEmpty.sus.
Qed.

Lemma stripSign_unsigned (s : string) :
  stripSign s = (if isNegative s then -1 else 1, unsigned s).
Proof.
  destruct s as [|c s]; [reflexivity|].
  cbn [stripSign isNegative unsigned].
  destruct (Ascii.eqb c "-"); [reflexivity|].
  destruct (Ascii.eqb c "+"); reflexivity.
Qed.

(** Without a hexadecimal prefix, [parseInt] returns the number value of
    the decimal prefix. *)
Lemma parseInt_decimal (s : string) (n : Z) :
  headWhite s = false ->
  hasHexPrefix s = false ->
  decimalPrefix s = Some n ->
  parseInt s = Some (toNumber n).
Proof.
  intros Hhead Hhex Hdec. unfold parseInt.
  rewrite (trimStart_fixed s Hhead), stripSign_unsigned. cbv beta iota.
  assert (Hp : stripPrefix (unsigned s) = (10, unsigned s)).
  { unfold hasHexPrefix in Hhex. unfold stripPrefix.
    destruct (unsigned s) as [|c0 [|c1 rest]]; try reflexivity.
    rewrite Hhex. reflexivity. }
  rewrite Hp. cbv beta iota. rewrite readDigits_digitRun.
  destruct (digitRun_numeral (unsigned s)) as (d & Hu & Hs).
  unfold decimalPrefix in Hdec. rewrite Hu in Hdec. rewrite <- Hs.
  assert (Hd : d <> Decimal.Nil) by (intros ->; discriminate Hdec).
  rewrite (readDigits_first d Hd), readDigits_numeral.
  assert (Hn : n = if isNegative s then - Z.of_uint d else Z.of_uint d).
  { destruct d; try congruence. }
  subst n. unfold Z.of_uint.
  destruct (isNegative s); do 2 f_equal; lia.
Qed.


(* ================================================================== *)
(** ** The response parser *)
(* ================================================================== *)

(** C3.  A raw text with fewer than two [|] separators splits into fewer
    than three segments and parses to the fallback: level UNKNOWN,
    percentage 0, not a scam, with the fixed explanation.  The parser is a
    total function, so no error is propagated. *)
Theorem too_few_segments_unknown (rawText : string) :
  (count "|" rawText < 2)%nat ->
  (List.length (split "|" rawText) < 3)%nat /\
  parseRawText rawText =
    {| isScam := false;
       scamLevel := "UNKNOWN";
       scamPercentage := 0;
       scamWarning := "Could not determine scam status from AI response." |}.
Proof.
  intros H.
  assert (Hlen : (List.length (split "|" rawText) < 3)%nat)
    by (rewrite split_length; lia).
  split; [exact Hlen|].
  unfold parseRawText.
  apply Nat.leb_gt in Hlen. rewrite Hlen. reflexivity.
Qed.

Lemma too_few_segments_unknown_witness :
  (List.length (split "|" "SAFE|8") < 3)%nat /\
  parseRawText "SAFE|8" =
    {| isScam := false;
       scamLevel := "UNKNOWN";
       scamPercentage := 0;
       scamWarning := "Could not determine scam status from AI response." |}.
Proof.
  apply (too_few_segments_unknown "SAFE|8"). simpl. lia.
Defined.

(** C6.  With three or more segments, a first segment that is not exactly
    one of the three level tokens after trimming, or a second segment that
    [parseInt] does not read as an integer, gives the same fallback as too
    few segments, whatever the other field is. *)
Theorem invalid_field_unknown (rawText : string) :
  (3 <= List.length (split "|" rawText))%nat ->
  includes validLevels (trim (nth 0 (split "|" rawText) "")) = false \/
  parseInt (trim (nth 1 (split "|" rawText) "")) = None ->
  parseRawText rawText = unknownResult /\
  parseRawText rawText = parseRawText "".
Proof.
  intros Hlen H.
  assert (E : parseRawText rawText = unknownResult).
  { unfold parseRawText.
    apply Nat.leb_le in Hlen. rewrite Hlen.
    destruct H as [H|H]; rewrite H.
    - reflexivity.
    - rewrite andb_false_r. reflexivity. }
  split; [exact E|]. rewrite E. reflexivity.
Qed.

Lemma invalid_field_unknown_witness :
  parseRawText "MAYBE|10|x" = unknownResult /\
  parseRawText "MAYBE|10|x" = parseRawText "".
Proof.
  apply (invalid_field_unknown "MAYBE|10|x").
  - simpl. lia.
  - left. reflexivity.
Defined.

(** C5.  With a valid level and a second segment that [parseInt] reads as
    the integer [pct], the result carries [pct] itself, also outside
    0..100, together with the level and its [isScam]. *)
Theorem percentage_not_clamped (rawText : string) (pct : JsNumber) :
  (3 <= List.length (split "|" rawText))%nat ->
  includes validLevels (trim (nth 0 (split "|" rawText) "")) = true ->
  parseInt (trim (nth 1 (split "|" rawText) "")) = Some pct ->
  scamPercentage (parseRawText rawText) = pct /\
  scamLevel (parseRawText rawText) = trim (nth 0 (split "|" rawText) "") /\
  isScam (parseRawText rawText) =
    negb (String.eqb (trim (nth 0 (split "|" rawText) "")) "SAFE").
Proof.
  intros Hlen Hlvl Hpct.
  rewrite (parseRawText_valid rawText pct Hlen Hlvl Hpct). auto.
Qed.

Lemma percentage_not_clamped_witness :
  scamPercentage (parseRawText "SAFE|150|ok") = 150 /\
  scamLevel (parseRawText "SAFE|150|ok") = "SAFE" /\
  isScam (parseRawText "SAFE|150|ok") = false.
Proof.
  apply (percentage_not_clamped "SAFE|150|ok" 150).
  - simpl. lia.
  - reflexivity.
  - reflexivity.
Defined.

Lemma parseRawText_levelAgrees (rawText : string) :
  levelAgrees (parseRawText rawText).
Proof.
  destruct (parseRawText_cases rawText) as [E|(pct & _ & Hlvl & _ & E)];
    rewrite E; unfold levelAgrees; cbn [scamLevel isScam unknownResult].
  - right; right; right; left. split; reflexivity.
  - destruct (includes_validLevels _ Hlvl) as [L|[L|L]]; rewrite L.
    + left. split; reflexivity.
    + right; left. split; reflexivity.
    + right; right; left. split; reflexivity.
Qed.

(** C2 does not hold as worded: the explanation is the third piece of the
    split, and the text after a third [|] is dropped. *)
Lemma explanation_drops_later_segments :
  (3 <= List.length (split "|" "SAFE|8|a|b"))%nat /\
  remainderAfter 2 "|" "SAFE|8|a|b" = Some "a|b" /\
  trim "a|b" = "a|b" /\
  parseRawText "SAFE|8|a|b" = mkClassification false "SAFE" 8 "a" /\
  scamWarning (parseRawText "SAFE|8|a|b") <> trim "a|b".
Proof.
  repeat split; try reflexivity.
  - simpl. lia.
  - discriminate.
Qed.

(** C2, amended.  With three or more segments, a valid level and an integer
    second segment, the explanation is the trimmed third piece of the split,
    which is the remainder after the first two delimiters cut at its next
    [|]; the fixed text replaces an empty explanation. *)
Theorem explanation_is_third_segment (rawText : string) (pct : JsNumber) :
  (3 <= List.length (split "|" rawText))%nat ->
  includes validLevels (trim (nth 0 (split "|" rawText) "")) = true ->
  parseInt (trim (nth 1 (split "|" rawText) "")) = Some pct ->
  exists remainder,
    remainderAfter 2 "|" rawText = Some remainder /\
    nth 2 (split "|" rawText) "" = hd "" (split "|" remainder) /\
    scamWarning (parseRawText rawText) =
      or_else (trim (hd "" (split "|" remainder)))
              "No specific reason provided.".
Proof.
  intros Hlen Hlvl Hpct.
  destruct (remainder_defined "|" 2 rawText) as [r Hr].
  { rewrite split_length in Hlen. lia. }
  exists r. split; [exact Hr|].
  assert (E : nth 2 (split "|" rawText) "" = hd "" (split "|" r)).
  { rewrite <- (split_remainder "|" 2 rawText r Hr).
    destruct (split "|" rawText) as [|p0 [|p1 [|p2 rest]]]; reflexivity. }
  split; [exact E|].
  rewrite (parseRawText_valid rawText pct Hlen Hlvl Hpct).
  cbn [scamWarning]. rewrite E. reflexivity.
Qed.

Lemma explanation_is_third_segment_witness :
  exists remainder,
    remainderAfter 2 "|" "SAFE|8|a|b" = Some remainder /\
    nth 2 (split "|" "SAFE|8|a|b") "" = hd "" (split "|" remainder) /\
    scamWarning (parseRawText "SAFE|8|a|b") =
      or_else (trim (hd "" (split "|" remainder)))
              "No specific reason provided.".
Proof.
  apply (explanation_is_third_segment "SAFE|8|a|b" 8).
  - simpl. lia.
  - reflexivity.
  - reflexivity.
Defined.

(** C10 does not hold as worded.  [parseInt] is called without a radix, so
    a segment that starts with [0x] is read in base 16: [0xZ] starts with
    the decimal digit 0 and yet is not a number for [parseInt], and [0x1A]
    is read as 26, not as its decimal prefix 0.  And the result is a double:
    the prefix 9007199254740993 is returned as 9007199254740992. *)
Lemma hex_prefix_is_not_decimal :
  decimalPrefix "0xZ" = Some 0 /\
  parseInt "0xZ" = None /\
  parseRawText "SAFE|0xZ|x" = unknownResult /\
  decimalPrefix "0x1A" = Some 0 /\
  parseRawText "SAFE|0x1A|x" = mkClassification false "SAFE" 26 "x" /\
  decimalPrefix "9007199254740993abc" = Some 9007199254740993 /\
  parseRawText "SAFE|9007199254740993abc|x"
  = mkClassification false "SAFE" 9007199254740992 "x".
Proof. repeat split; reflexivity. Qed.

(** C10, amended.  When the trimmed second segment starts with an optional
    sign and at least one decimal digit, and its digits do not start with
    [0x] or [0X], the integer check succeeds whatever follows the digits,
    and the result carries, with the valid level, the number value of the
    decimal prefix: the prefix itself when it is a safe integer, the
    nearest double otherwise. *)
Theorem numeric_prefix_accepted (rawText : string) (n : Z) :
  (3 <= List.length (split "|" rawText))%nat ->
  includes validLevels (trim (nth 0 (split "|" rawText) "")) = true ->
  decimalPrefix (trim (nth 1 (split "|" rawText) "")) = Some n ->
  hasHexPrefix (trim (nth 1 (split "|" rawText) "")) = false ->
  scamPercentage (parseRawText rawText) = toNumber n /\
  (isSafeInteger n -> scamPercentage (parseRawText rawText) = Finite n) /\
  scamLevel (parseRawText rawText) = trim (nth 0 (split "|" rawText) "") /\
  parseRawText rawText <> unknownResult.
Proof.
  intros Hlen Hlvl Hdec Hhex.
  pose proof (parseInt_decimal _ n (trim_headWhite _) Hhex Hdec) as Hparse.
  rewrite (parseRawText_valid rawText (toNumber n) Hlen Hlvl Hparse).
  cbn [scamPercentage scamLevel].
  split; [reflexivity|]. split; [now apply safe_toNumber|].
  split; [reflexivity|].
  intros E. apply (f_equal scamLevel) in E. cbn [scamLevel unknownResult] in E.
  rewrite E in Hlvl. discriminate Hlvl.
Qed.

Lemma numeric_prefix_accepted_witness :
  scamPercentage (parseRawText "SAFE|-1234567890abc|x")
  = toNumber (-1234567890) /\
  (isSafeInteger (-1234567890) ->
   scamPercentage (parseRawText "SAFE|-1234567890abc|x")
   = Finite (-1234567890)) /\
  scamLevel (parseRawText "SAFE|-1234567890abc|x") = "SAFE" /\
  parseRawText "SAFE|-1234567890abc|x" <> unknownResult.
Proof.
  apply (numeric_prefix_accepted "SAFE|-1234567890abc|x" (-1234567890)).
  - simpl. lia.
  - reflexivity.
  - reflexivity.
  - reflexivity.
Defined.

(** The example of the claim. *)
Example numeric_prefix_of_12abc :
  parseRawText "SAFE|12abc|x" = mkClassification false "SAFE" 12 "x".
Proof. reflexivity. Qed.

(* ================================================================== *)
(** ** The classifier call *)
(* ================================================================== *)

(** A normal exit of the [try] block returns what the parser built. *)
Lemma tryBlock_returns_parse (fetched : FetchOutcome) (c : Classification) :
  tryBlock fetched = Return c -> exists rawText, c = parseRawText rawText.
Proof.
  unfold tryBlock, bindExc.
  destruct fetched as [r|msg]; [|discriminate].
  destruct (ok r); cbn [negb].
  - destruct (json r) as [body|msg]; [|discriminate].
    destruct (firstPart body) as [p|]; [|discriminate].
    destruct (part_text p) as [rawText|typeError]; [|discriminate].
    intros H; injection H as <-. now exists rawText.
  - destruct (json r); discriminate.
Qed.

Lemma checkMessageForScam_levelAgrees (fetched : FetchOutcome) :
  levelAgrees (checkMessageForScam fetched).
Proof.
  unfold checkMessageForScam.
  destruct (tryBlock fetched) as [c|msg] eqn:E.
  - destruct (tryBlock_returns_parse _ _ E) as [rawText ->].
    apply parseRawText_levelAgrees.
  - unfold levelAgrees, errorResult; cbn [scamLevel isScam].
    right; right; right; right. split; reflexivity.
Qed.

(** C4.  In every classification that the parser or the classifier call
    produces, [isScam] is [level <> SAFE] on the three levels of the model
    and false on UNKNOWN and ERROR.  The three sample answers parse to
    false, true, true with percentages 8, 35, 75 and explanations x, y, z. *)
Theorem isScam_follows_level (rawText : string) (fetched : FetchOutcome) :
  levelAgrees (parseRawText rawText) /\
  levelAgrees (checkMessageForScam fetched) /\
  parseRawText "SAFE|8|x" = mkClassification false "SAFE" 8 "x" /\
  parseRawText "POTENTIAL_SCAM|35|y" =
    mkClassification true "POTENTIAL_SCAM" 35 "y" /\
  parseRawText "HIGHLY_LIKELY_SCAM|75|z" =
    mkClassification true "HIGHLY_LIKELY_SCAM" 75 "z".
Proof.
  split; [apply parseRawText_levelAgrees|].
  split; [apply checkMessageForScam_levelAgrees|].
  repeat split; reflexivity.
Qed.

Lemma callFails_throws (fetched : FetchOutcome) :
  CallFails fetched -> exists message, tryBlock fetched = Throw message.
Proof.
  intros H. destruct H as [message | r Hok | r body Hok Hjson Hnone];
    unfold tryBlock, bindExc.
  - now exists message.
  - rewrite Hok; cbn [negb].
    destruct (json r) as [errorData|message]; eexists; reflexivity.
  - rewrite Hok, Hjson, Hnone; cbn [negb]. eexists; reflexivity.
Qed.


Lemma thrown_tryBlock (fetched : FetchOutcome) (message : string) :
  Thrown fetched message -> tryBlock fetched = Throw message.
Proof.
  intros H. unfold tryBlock, bindExc.
  destruct H as [m | r errorData Hok Hjson | r m Hjson
                 | r body Hok Hjson Hpart
                 | r body p typeError Hok Hjson Hpart Htext].
  - reflexivity.
  - rewrite Hok, Hjson. reflexivity.
  - rewrite Hjson. destruct (ok r); reflexivity.
  - rewrite Hok, Hjson, Hpart. reflexivity.
  - rewrite Hok, Hjson, Hpart, Htext. reflexivity.
Qed.

Lemma failed_call_error_level (fetched : FetchOutcome) :
  CallFails fetched -> scamLevel (checkMessageForScam fetched) = "ERROR".
Proof.
  intros H. destruct (callFails_throws fetched H) as [message E].
  unfold checkMessageForScam. rewrite E. reflexivity.
Qed.



(** The explanation of the response with status 403. *)
Example forbidden_explanation :
  scamWarning (checkMessageForScam forbidden)
  = "Error during analysis: AI API request failed: Forbidden - API key not valid".
Proof. reflexivity. Qed.

(** The thrown message is determined by the outcome. *)
Lemma thrown_unique (fetched : FetchOutcome) (m1 m2 : string) :
  Thrown fetched m1 -> Thrown fetched m2 -> m1 = m2.
Proof.
  intros H1 H2. apply thrown_tryBlock in H1, H2. congruence.
Qed.

(** The message of the error in each kind of failure. *)
Lemma error_messages (message : string) (r : Response) (body : Body) :
  checkMessageForScam (Throw message) = errorResult message /\
  (ok r = false -> json r = Return body ->
   checkMessageForScam (Return r) =
     errorResult ("AI API request failed: " ++ statusText r ++ " - "
                  ++ errorDetail body)) /\
  (json r = Throw message ->
   checkMessageForScam (Return r) = errorResult message) /\
  (ok r = true -> json r = Return body -> firstPart body = None ->
   checkMessageForScam (Return r) =
     errorResult "Could not understand the AI response. Unexpected format.").
Proof.
  unfold checkMessageForScam, tryBlock, bindExc.
  split; [reflexivity|]. split; [|split].
  - intros -> ->. reflexivity.
  - intros ->. destruct (ok r); reflexivity.
  - intros -> -> ->. reflexivity.
Qed.

(* ================================================================== *)
(** ** The display sort *)
(* ================================================================== *)

Section ArraySortFacts.
Context {A : Type}.
Variable compareFn : A -> A -> Q.

Lemma insert_permutation (x : A) (l : list A) :
  Permutation (x :: l) (insert compareFn x l).
Proof.
  induction l as [|y l IH]; simpl.
  - apply Permutation_refl.
  - destruct (Qle_bool (compareFn x y) 0).
    + apply Permutation_refl.
    + eapply perm_trans; [apply perm_swap|].
      apply perm_skip, IH.
Qed.

Lemma sort_permutation (l : list A) : Permutation l (sort compareFn l).
Proof.
  induction l as [|x l IH]; simpl.
  - apply perm_nil.
  - eapply perm_trans; [apply perm_skip, IH|].
    apply insert_permutation.
Qed.

(** Elements that the comparator does not separate keep their order. *)
Section Stable.
Variable sameClass : A -> bool.
Hypothesis not_separated :
  forall x y, sameClass x = true -> sameClass y = true ->
              Qle_bool (compareFn x y) 0 = true.


End Stable.

(** A comparator that subtracts keys orders the result by the key. *)
Section ByKey.
Variable key : A -> Q.
Hypothesis compare_keys : forall x y, (compareFn x y == key x - key y)%Q.

Let ascending (a b : A) : Prop := (key a <= key b)%Q.

Lemma insert_sorted (x : A) (l : list A) :
  StronglySorted ascending l ->
  StronglySorted ascending (insert compareFn x l).
Proof.
  induction 1 as [|y l Hsorted IH Hall]; cbn [insert].
  - constructor; constructor.
  - destruct (Qle_bool (compareFn x y) 0) eqn:Hle.
    + apply Qle_bool_iff in Hle. rewrite compare_keys in Hle.
      assert (Hxy : (key x <= key y)%Q) by lra.
      constructor; [constructor; assumption|].
      constructor; [exact Hxy|].
      eapply Forall_impl; [|exact Hall].
      intros b Hb. unfold ascending in *. lra.
    + assert (Hyx : (key y <= key x)%Q).
      { destruct (Qlt_le_dec 0 (compareFn x y)) as [Hlt|Hge].
        - rewrite compare_keys in Hlt. lra.
        - apply Qle_bool_iff in Hge. rewrite Hge in Hle. discriminate Hle. }
      constructor; [exact IH|].
      eapply Permutation_Forall; [apply insert_permutation|].
      constructor; assumption.
Qed.

Lemma sort_sorted (l : list A) :
  StronglySorted ascending (sort compareFn l).
Proof.
  induction l as [|x l IH]; cbn [sort].
  - constructor.
  - apply insert_sorted, IH.
Qed.
End ByKey.
End ArraySortFacts.



(* ================================================================== *)
(** ** The submission workflow *)
(* ================================================================== *)

(** C8.  A submission that is accepted (a user is signed in and nobody is
    sending) and whose three appends succeed adds exactly three documents
    to the collection, in this order: the user's text, the fixed
    placeholder of the assistant with no classification, and the final
    document of the assistant with the classification; the component is
    idle again afterwards and the state behind [isSendingMessage] is reset.
    This holds whatever the endpoint answers, and when the call fails the
    final document carries level ERROR. *)
Theorem turn_appends_three (s : Chat) (input : string) (fetched : FetchOutcome) :
  noUser (userId s) = false ->
  idle s ->
  collection (run s (turn input fetched)) =
    (collection s ++
      [ {| text := input; sender := user; analysis := None |};
        {| text := "I've analyzed this message for potential scam indicators.";
           sender := ai; analysis := None |};
        {| text := "Analysis complete."; sender := ai;
           analysis := Some (checkMessageForScam fetched) |} ])%list /\
  idle (run s (turn input fetched)) /\
  sendingState (run s (turn input fetched)) = false /\
  (CallFails fetched -> scamLevel (checkMessageForScam fetched) = "ERROR").
Proof.
  intros Huser [Hflag Hnone].
  destruct s as [uid sending state err docs active];
    cbn in Huser, Hflag, Hnone.
  subst sending active.
  unfold run, turn. cbn [fold_left step].
  unfold handleSendMessage. cbn [userId isSendingMessage inFlight].
  rewrite Huser. cbn.
  repeat split.
  - rewrite <- !app_assoc. reflexivity.
  - intros H. destruct (failed_call_error_level fetched H). reflexivity.
Qed.

Lemma turn_appends_three_witness :
  collection (run signedIn (turn "You won a lottery" forbidden)) =
    ([] ++
      [ {| text := "You won a lottery"; sender := user; analysis := None |};
        {| text := "I've analyzed this message for potential scam indicators.";
           sender := ai; analysis := None |};
        {| text := "Analysis complete."; sender := ai;
           analysis := Some (checkMessageForScam forbidden) |} ])%list /\
  idle (run signedIn (turn "You won a lottery" forbidden)) /\
  sendingState (run signedIn (turn "You won a lottery" forbidden)) = false /\
  (CallFails forbidden -> scamLevel (checkMessageForScam forbidden) = "ERROR").
Proof.
  apply (turn_appends_three signedIn "You won a lottery" forbidden).
  - reflexivity.
  - split; reflexivity.
Defined.






(** When every event is followed by a render, the component has rendered
    before each submission, and is up to date at the end. *)
Lemma flushed_scheduled (events : list Event) :
  forall s, upToDate s ->
            scheduled s (flushed events) /\ upToDate (run s (flushed events)).
Proof.
  induction events as [|e events IH]; intros s Hs.
  - split; [exact I|exact Hs].
  - assert (Hnext : upToDate (step (step s e) Rendered)) by reflexivity.
    destruct (IH _ Hnext) as [Hsched Hfresh].
    split.
    + cbn [flushed flat_map app scheduled]. split; [destruct e; auto|].
      split; [exact I|exact Hsched].
    + exact Hfresh.
Qed.




(* ================================================================== *)
(** ** The input form *)
(* ================================================================== *)

Lemma handleSubmit_not_blank (input : string) :
  allWhiteSpace input = false ->
  handleSubmit input = (Some (trim input), EmptyString).
Proof.
  intros H. unfold handleSubmit.
  destruct (trim input) eqn:E; [|reflexivity].
  now apply trim_not_blank in H.
Qed.

(** X1.  A text made of white space only (the empty text too) is not
    submitted: [onSendMessage] is not called, the text of the form and the
    component are left as they are, and the send button is disabled. *)
Theorem blank_input_not_sent (s : Chat) (isLoading : bool) (input : string) :
  allWhiteSpace input = true ->
  handleSubmit input = (None, input) /\
  submitForm s input = (s, input) /\
  sendDisabled isLoading input = true.
Proof.
  intros H. apply trim_blank in H.
  unfold submitForm, handleSubmit, sendDisabled. rewrite H. cbn.
  rewrite orb_true_r. auto.
Qed.

Lemma blank_input_not_sent_witness :
  handleSubmit "   " = (None, "   ") /\
  submitForm signedIn "   " = (signedIn, "   ") /\
  sendDisabled false "   " = true.
Proof.
  apply (blank_input_not_sent signedIn false "   "). reflexivity.
Defined.

(** X2.  A text with a character that is not white space is submitted
    trimmed: the argument of [onSendMessage] is [text.trim()], which is not
    empty and neither starts nor ends with white space, the text of the form
    is cleared, and the send button is enabled when nothing is loading. *)
Theorem sent_text_is_trimmed (input : string) :
  allWhiteSpace input = false ->
  handleSubmit input = (Some (trim input), EmptyString) /\
  trim input <> EmptyString /\
  headWhite (trim input) = false /\
  lastWhite (trim input) = false /\
  trim (trim input) = trim input /\
  sendDisabled false input = false.
Proof.
  intros H. split; [now apply handleSubmit_not_blank|].
  split; [now apply trim_not_blank|].
  split; [apply trim_headWhite|]. split; [apply trim_lastWhite|].
  split; [apply trim_idempotent|].
  unfold sendDisabled. destruct (trim input) eqn:E; [|reflexivity].
  now apply trim_not_blank in H.
Qed.

Lemma sent_text_is_trimmed_witness :
  handleSubmit "  You won!  " = (Some (trim "  You won!  "), EmptyString) /\
  trim "  You won!  " <> EmptyString /\
  headWhite (trim "  You won!  ") = false /\
  lastWhite (trim "  You won!  ") = false /\
  trim (trim "  You won!  ") = trim "  You won!  " /\
  sendDisabled false "  You won!  " = false.
Proof.
  apply (sent_text_is_trimmed "  You won!  "). reflexivity.
Defined.

(** X3.  When a user is signed in and nothing is being sent, submitting a
    text that is not blank starts a turn on the trimmed text and clears the
    form; the state behind [isSendingMessage] is set, so from the next
    render on the send button is disabled whatever is typed. *)
Theorem form_starts_turn (s : Chat) (input : string) :
  noUser (userId s) = false ->
  isSendingMessage s = false ->
  allWhiteSpace input = false ->
  snd (submitForm s input) = EmptyString /\
  inFlight (fst (submitForm s input)) =
    (inFlight s ++ [AwaitUserDoc (trim input)])%list /\
  collection (fst (submitForm s input)) = collection s /\
  sendingState (fst (submitForm s input)) = true /\
  (forall typed,
      sendDisabled (isSendingMessage (render (fst (submitForm s input))))
                   typed = true).
Proof.
  intros Huser Hflag Hinput.
  unfold submitForm. rewrite (handleSubmit_not_blank input Hinput).
  cbn [fst snd]. unfold handleSendMessage. rewrite Huser, Hflag.
  cbn. auto.
Qed.

Lemma form_starts_turn_witness :
  snd (submitForm signedIn " hello ") = EmptyString /\
  inFlight (fst (submitForm signedIn " hello ")) =
    (inFlight signedIn ++ [AwaitUserDoc (trim " hello ")])%list /\
  collection (fst (submitForm signedIn " hello ")) = collection signedIn /\
  sendingState (fst (submitForm signedIn " hello ")) = true /\
  (forall typed,
      sendDisabled
        (isSendingMessage (render (fst (submitForm signedIn " hello "))))
        typed = true).
Proof.
  apply (form_starts_turn signedIn " hello "); reflexivity.
Defined.

(** X4.  When [handleSendMessage] rejects the call (no user, or a message
    is being sent), [handleSubmit] clears the form all the same: the
    component is unchanged and the typed text is gone. *)
Theorem rejected_submission_clears_text (s : Chat) (input : string) :
  noUser (userId s) || isSendingMessage s = true ->
  allWhiteSpace input = false ->
  submitForm s input = (s, EmptyString).
Proof.
  intros Hguard Hinput.
  unfold submitForm. rewrite (handleSubmit_not_blank input Hinput).
  cbn [fst snd]. unfold handleSendMessage. rewrite Hguard. reflexivity.
Qed.

Lemma rejected_submission_clears_text_witness :
  submitForm (run signedIn [Submit "first"; Rendered]) "second" =
    (run signedIn [Submit "first"; Rendered], EmptyString).
Proof.
  apply (rejected_submission_clears_text
           (run signedIn [Submit "first"; Rendered]) "second"); reflexivity.
Defined.

(* ================================================================== *)
(** ** Further properties of the submission workflow *)
(* ================================================================== *)

Lemma step_collection (s : Chat) (e : Event) :
  exists added, collection (step s e) = (collection s ++ added)%list.
Proof.
  assert (Hsame : exists added, collection s = (collection s ++ added)%list)
    by (exists []; now rewrite app_nil_r).
  assert (Hresume : forall k a,
             exists added,
               collection (resume s k a e) = (collection s ++ added)%list).
  { intros k a.
    destruct a, e as [input'|k' [|]|k' fetched|]; cbn [resume];
      try exact Hsame;
      unfold continue, complete, abort; cbn [collection];
      try exact Hsame; eexists; reflexivity. }
  destruct e as [input|k fulfilled|k fetched|]; cbn [step].
  - unfold handleSendMessage.
    destruct (noUser (userId s) || isSendingMessage s); exact Hsame.
  - destruct (nth_error (inFlight s) k); [apply Hresume|exact Hsame].
  - destruct (nth_error (inFlight s) k); [apply Hresume|exact Hsame].
  - exact Hsame.
Qed.

(** X5.  The collection is append-only: whatever happens, the documents
    present before are still there, unchanged and in the same order, as the
    beginning of the collection. *)
Theorem collection_append_only (s : Chat) (events : list Event) :
  exists added, collection (run s events) = (collection s ++ added)%list.
Proof.
  unfold run. revert s.
  induction events as [|e events IH]; intros s; cbn [fold_left].
  - exists []. now rewrite app_nil_r.
  - destruct (IH (step s e)) as [later Hlater].
    destruct (step_collection s e) as [added Hadded].
    exists (added ++ later)%list.
    rewrite Hlater, Hadded, app_assoc. reflexivity.
Qed.

Lemma step_error (s : Chat) (e : Event) :
  error (step s e) = error s \/
  error (step s e) = "Failed to send message. Please try again.".
Proof.
  assert (Hresume : forall k a,
             error (resume s k a e) = error s \/
             error (resume s k a e) =
               "Failed to send message. Please try again.").
  { intros k a.
    destruct a, e as [input'|k' [|]|k' fetched|]; cbn [resume]; auto. }
  destruct e as [input|k fulfilled|k fetched|]; cbn [step].
  - unfold handleSendMessage.
    destruct (noUser (userId s) || isSendingMessage s); auto.
  - destruct (nth_error (inFlight s) k); auto.
  - destruct (nth_error (inFlight s) k); auto.
  - auto.
Qed.

(** X6.  An error, once set, is never cleared by the workflow: from a state
    whose [error] is not empty, every run ends with a non-empty [error]. *)
Theorem error_is_never_cleared (s : Chat) (events : list Event) :
  error s <> EmptyString ->
  error (run s events) <> EmptyString.
Proof.
  unfold run. revert s.
  induction events as [|e events IH]; intros s Hs; cbn [fold_left].
  - exact Hs.
  - apply IH. destruct (step_error s e) as [E|E]; rewrite E.
    + exact Hs.
    + discriminate.
Qed.

Lemma error_is_never_cleared_witness :
  error (run (run signedIn (failingTurn 0 "hi" forbidden))
             (turn "again" forbidden)) <> EmptyString.
Proof.
  apply (error_is_never_cleared (run signedIn (failingTurn 0 "hi" forbidden))
                                (turn "again" forbidden)).
  vm_compute. discriminate.
Defined.

(** X7.  No rollback: when append number [k] of a turn is rejected (k = 0,
    1, 2), the [k] documents appended before it stay in the collection, the
    error text of the component is set, and the component is idle again,
    with the state behind [isSendingMessage] reset. *)
Theorem failed_append_keeps_earlier_documents
  (s : Chat) (k : nat) (input : string) (fetched : FetchOutcome) :
  noUser (userId s) = false ->
  idle s ->
  (k <= 2)%nat ->
  collection (run s (failingTurn k input fetched)) =
    (collection s ++
       firstn k [userDoc input; placeholderDoc;
                 finalDoc (checkMessageForScam fetched)])%list /\
  error (run s (failingTurn k input fetched)) =
    "Failed to send message. Please try again." /\
  idle (run s (failingTurn k input fetched)) /\
  sendingState (run s (failingTurn k input fetched)) = false.
Proof.
  intros Huser [Hflag Hnone] Hk.
  destruct s as [uid sending state err docs active];
    cbn in Huser, Hflag, Hnone.
  subst sending active.
  assert (Hcases : k = 0%nat \/ k = 1%nat \/ k = 2%nat) by lia.
  destruct Hcases as [->|[->| ->]];
    unfold run, failingTurn; cbn [fold_left step];
    unfold handleSendMessage; cbn [userId isSendingMessage inFlight];
    rewrite Huser; cbn; repeat split;
    rewrite <- ?app_assoc, ?app_nil_r; reflexivity.
Qed.

Lemma failed_append_keeps_earlier_documents_witness :
  collection (run signedIn (failingTurn 2 "hi" forbidden)) =
    (collection signedIn ++
       firstn 2 [userDoc "hi"; placeholderDoc;
                 finalDoc (checkMessageForScam forbidden)])%list /\
  error (run signedIn (failingTurn 2 "hi" forbidden)) =
    "Failed to send message. Please try again." /\
  idle (run signedIn (failingTurn 2 "hi" forbidden)) /\
  sendingState (run signedIn (failingTurn 2 "hi" forbidden)) = false.
Proof.
  apply (failed_append_keeps_earlier_documents signedIn 2 "hi" forbidden).
  - reflexivity.
  - split; reflexivity.
  - lia.
Defined.



Lemma groupedSoFar_grouped (s : Chat) :
  groupedSoFar s -> Grouped (collection s).
Proof.
  intros (earlier & Hearlier & [[_ ->] | (_ & a & docs & _ & Hdocs & ->)]).
  - exact Hearlier.
  - destruct Hdocs.
    + now rewrite app_nil_r.
    + apply grouped_turn; [exact Hearlier|apply turn_user].
    + apply grouped_turn; [exact Hearlier|apply turn_placeholder].
    + apply grouped_turn; [exact Hearlier|apply turn_placeholder].
Qed.

Lemma handleSendMessage_groupedSoFar (s : Chat) (input : string) :
  upToDate s -> groupedSoFar s -> groupedSoFar (handleSendMessage s input).
Proof.
  intros Hfresh Hs. unfold handleSendMessage.
  destruct (noUser (userId s) || isSendingMessage s) eqn:Hguard; [exact Hs|].
  apply orb_false_iff in Hguard as [_ Hflag].
  unfold upToDate in Hfresh. rewrite Hflag in Hfresh.
  destruct Hs as (earlier & Hearlier & [[Hnone Hdocs] | (Htrue & _)]);
    [|congruence].
  exists earlier. split; [exact Hearlier|]. right. cbn.
  split; [reflexivity|].
  exists (AwaitUserDoc input), []. rewrite Hnone, Hdocs, app_nil_r.
  repeat split. constructor.
Qed.

Lemma resume_groupedSoFar
  (s : Chat) (earlier : list DocData) (a : Await) (docs : list DocData)
  (e : Event) :
  Grouped earlier ->
  sendingState s = true ->
  inFlight s = [a] ->
  Appended a docs ->
  collection s = (earlier ++ docs)%list ->
  groupedSoFar (resume s 0 a e).
Proof.
  intros Hearlier Hflag Hone Hdocs Hcoll.
  assert (Hs : groupedSoFar s).
  { exists earlier. split; [exact Hearlier|]. right.
    split; [exact Hflag|]. now exists a, docs. }
  assert (Hgo : forall added next docs',
             Appended next docs' -> docs' = (docs ++ added)%list ->
             groupedSoFar (continue s 0 added next)).
  { intros added next docs' Hnext ->. exists earlier.
    split; [exact Hearlier|]. right. cbn. rewrite Hone, Hcoll.
    split; [exact Hflag|]. exists next, (docs ++ added)%list.
    rewrite app_assoc. auto. }
  assert (Hend : forall added,
             Grouped (earlier ++ docs ++ added)%list ->
             groupedSoFar (complete s 0 added)).
  { intros added Hall. exists (earlier ++ docs ++ added)%list.
    split; [exact Hall|]. left. cbn. rewrite Hone, Hcoll, app_assoc. auto. }
  assert (Habort : Grouped (earlier ++ docs)%list ->
                   groupedSoFar (abort s 0)).
  { intros Hall. exists (earlier ++ docs)%list.
    split; [exact Hall|]. left. cbn. rewrite Hone, Hcoll. auto. }
  assert (Hkept : Grouped (earlier ++ docs)%list).
  { rewrite <- Hcoll. now apply groupedSoFar_grouped. }
  destruct Hdocs as [input|input|input|input fetched0];
    destruct e as [input'|k [|]|k fetched|]; cbn [resume];
    try exact Hs; try (apply Habort; exact Hkept).
  - eapply Hgo; [apply appended_user|reflexivity].
  - eapply Hgo; [apply appended_placeholder|reflexivity].
  - eapply Hgo; [apply appended_analysed|reflexivity].
  - apply Hend. apply grouped_turn; [exact Hearlier|apply turn_final].
Qed.

Lemma render_groupedSoFar (s : Chat) :
  groupedSoFar s -> groupedSoFar (render s).
Proof.
  intros (earlier & Hearlier & H). exists earlier. split; [exact Hearlier|].
  exact H.
Qed.

Lemma step_groupedSoFar (s : Chat) (e : Event) :
  match e with
  | Submit _ => upToDate s
  | _ => True
  end ->
  groupedSoFar s -> groupedSoFar (step s e).
Proof.
  intros Hfresh Hs.
  assert (Hresume : forall k,
             groupedSoFar match nth_error (inFlight s) k with
                          | Some a => resume s k a e
                          | None => s
                          end).
  { intros k.
    destruct Hs as (earlier & Hearlier &
                    [[Hnone Hdocs] | (Hflag & a & docs & Hone & Ha & Hdocs)]).
    - rewrite Hnone. destruct k; cbn [nth_error];
        (exists earlier; split; [exact Hearlier|left; auto]).
    - rewrite Hone. destruct k as [|k]; cbn [nth_error].
      + now apply (resume_groupedSoFar s earlier a docs e).
      + destruct k; cbn [nth_error];
          (exists earlier; split; [exact Hearlier|]; right;
           split; [exact Hflag|]; now exists a, docs). }
  destruct e as [input|k fulfilled|k fetched|]; cbn [step].
  - now apply handleSendMessage_groupedSoFar.
  - apply Hresume.
  - apply Hresume.
  - now apply render_groupedSoFar.
Qed.

(** X9.  Grouping by arrival order is sound when the component renders
    before each submission: in such a run, from an idle component whose
    collection is made of the documents of successive turns, the
    collection stays made of the documents of successive turns.  Each
    final document directly follows a placeholder that directly follows a
    user document, and its classification is a result of
    [checkMessageForScam]; documents of two turns are never mixed. *)
Theorem collection_stays_grouped (s0 : Chat) (events : list Event) :
  idle s0 ->
  Grouped (collection s0) ->
  scheduled s0 events ->
  Grouped (collection (run s0 events)).
Proof.
  intros [_ Hnone] Hgrouped Hsched.
  apply groupedSoFar_grouped.
  assert (H0 : groupedSoFar s0).
  { exists (collection s0). split; [exact Hgrouped|]. left. auto. }
  clear Hnone Hgrouped. unfold run. revert s0 H0 Hsched.
  induction events as [|e events IH]; intros s Hs Hsched; cbn [fold_left].
  - exact Hs.
  - destruct Hsched as [He Hrest].
    apply IH; [|exact Hrest]. now apply step_groupedSoFar.
Qed.

Lemma collection_stays_grouped_witness :
  Grouped (collection
             (run signedIn
                  (flushed (failingTurn 1 "first" forbidden
                            ++ turn "second" forbidden)))).
Proof.
  apply (collection_stays_grouped signedIn).
  - split; reflexivity.
  - apply grouped_nil.
  - apply flushed_scheduled. reflexivity.
Defined.

(** In a grouped collection a placeholder directly follows a document of
    the user. *)
Lemma grouped_before_placeholder (l : list DocData) (x : DocData) :
  Grouped (l ++ [x; placeholderDoc]) -> sender x = user.
Proof.
  intros H. inversion H as [Hnil | earlier docs Hearlier Hdocs Heq].
  - destruct l; discriminate.
  - change (l ++ [x; placeholderDoc])%list
      with (l ++ [x] ++ [placeholderDoc])%list in Heq.
    rewrite app_assoc in Heq.
    destruct Hdocs as [input|input|input fetched].
    + apply app_inj_tail in Heq as [_ E]. discriminate E.
    + change (earlier ++ [userDoc input; placeholderDoc])%list
        with (earlier ++ [userDoc input] ++ [placeholderDoc])%list in Heq.
      rewrite app_assoc in Heq.
      apply app_inj_tail in Heq as [Heq _].
      apply app_inj_tail in Heq as [_ <-]. reflexivity.
    + change (earlier ++ [userDoc input; placeholderDoc;
                          finalDoc (checkMessageForScam fetched)])%list
        with (earlier ++ [userDoc input; placeholderDoc]
              ++ [finalDoc (checkMessageForScam fetched)])%list in Heq.
      rewrite app_assoc in Heq.
      apply app_inj_tail in Heq as [_ E]. discriminate E.
Qed.

(** Without a render between two submissions the documents of two turns
    are mixed, and the collection is not grouped. *)
Example unrendered_submissions_mix_turns :
  collection (run signedIn
                  [Submit "first"; Submit "second";
                   AddDocSettled 0 true; AddDocSettled 1 true;
                   AddDocSettled 0 true; AddDocSettled 1 true])
  = [userDoc "first"; userDoc "second"; placeholderDoc; placeholderDoc] /\
  ~ Grouped (collection
               (run signedIn
                    [Submit "first"; Submit "second";
                     AddDocSettled 0 true; AddDocSettled 1 true;
                     AddDocSettled 0 true; AddDocSettled 1 true])).
Proof.
  split; [reflexivity|].
  intros H.
  apply (grouped_before_placeholder [userDoc "first"; userDoc "second"]) in H.
  discriminate H.
Qed.

Lemma list_sum_replaceAt {A : Type} (f : A -> nat) (l : list A) :
  forall k a b,
    nth_error l k = Some a ->
    (list_sum (map f (replaceAt k b l)) + f a
     = list_sum (map f l) + f b)%nat.
Proof.
  unfold list_sum.
  induction l as [|x l IH]; intros k a b H; destruct k as [|k];
    cbn [nth_error] in H; try discriminate.
  - injection H as ->. cbn [replaceAt map fold_right]. lia.
  - cbn [replaceAt map fold_right]. specialize (IH k a b H). lia.
Qed.

Lemma list_sum_removeAt {A : Type} (f : A -> nat) (l : list A) :
  forall k a,
    nth_error l k = Some a ->
    (list_sum (map f (removeAt k l)) + f a = list_sum (map f l))%nat.
Proof.
  unfold list_sum.
  induction l as [|x l IH]; intros k a H; destruct k as [|k];
    cbn [nth_error] in H; try discriminate.
  - injection H as ->. cbn [removeAt map fold_right]. lia.
  - cbn [removeAt map fold_right]. specialize (IH k a H). lia.
Qed.

Lemma Forall_replaceAt {A : Type} (P : A -> Prop) (l : list A) :
  forall k b, Forall P l -> P b -> Forall P (replaceAt k b l).
Proof.
  induction l as [|x l IH]; intros k b Hl Hb; destruct k as [|k]; cbn;
    try exact Hl; inversion Hl; subst; constructor; auto.
Qed.

Lemma Forall_removeAt {A : Type} (P : A -> Prop) (l : list A) :
  forall k, Forall P l -> Forall P (removeAt k l).
Proof.
  induction l as [|x l IH]; intros k Hl; destruct k as [|k]; cbn;
    try exact Hl; inversion Hl; subst; try assumption; constructor; auto.
Qed.

Lemma Forall_nth_error {A : Type} (P : A -> Prop) (l : list A) :
  forall k a, Forall P l -> nth_error l k = Some a -> P a.
Proof.
  intros k a Hl H. rewrite Forall_forall in Hl.
  apply Hl. eapply nth_error_In. exact H.
Qed.

Lemma resume_accounted (s : Chat) (k : nat) (a : Await) (e : Event) :
  nth_error (inFlight s) k = Some a ->
  accounted s -> accounted (resume s k a e).
Proof.
  intros Hk Hs. pose proof Hs as (HA & HL & HW & HP).
  pose proof (Forall_nth_error _ _ _ _ HP Hk) as Ha.
  assert (Hcontinue : forall added next,
             pendingWellFormed next ->
             Forall analysisWellFormed added ->
             (List.length (filter hasAnalysis added) + owedAnalyses next
              <= List.length (filter fromUser added) + owedAnalyses a)%nat ->
             (List.length added + owedDocuments next
              <= 3 * List.length (filter fromUser added) + owedDocuments a)%nat ->
             accounted (continue s k added next)).
  { intros added next Hnext Hadded H1 H2.
    unfold accounted, continue. cbn [collection inFlight].
    pose proof (list_sum_replaceAt owedAnalyses _ k a next Hk).
    pose proof (list_sum_replaceAt owedDocuments _ k a next Hk).
    rewrite !filter_app, !length_app.
    repeat split; try lia.
    - apply Forall_app. auto.
    - now apply Forall_replaceAt. }
  assert (Hcomplete : forall added,
             Forall analysisWellFormed added ->
             (List.length (filter hasAnalysis added)
              <= List.length (filter fromUser added) + owedAnalyses a)%nat ->
             (List.length added
              <= 3 * List.length (filter fromUser added) + owedDocuments a)%nat ->
             accounted (complete s k added)).
  { intros added Hadded H1 H2.
    unfold accounted, complete. cbn [collection inFlight].
    pose proof (list_sum_removeAt owedAnalyses _ k a Hk).
    pose proof (list_sum_removeAt owedDocuments _ k a Hk).
    rewrite !filter_app, !length_app.
    repeat split; try lia.
    - apply Forall_app. auto.
    - now apply Forall_removeAt. }
  assert (Habort : accounted (abort s k)).
  { unfold accounted, abort. cbn [collection inFlight].
    pose proof (list_sum_removeAt owedAnalyses _ k a Hk).
    pose proof (list_sum_removeAt owedDocuments _ k a Hk).
    repeat split; try lia; try assumption.
    now apply Forall_removeAt. }
  destruct a as [input|input|input|c],
           e as [input'|k' [|]|k' fetched|]; cbn [resume];
    try exact Hs; try exact Habort.
  - apply Hcontinue.
    + exact I.
    + constructor; [exact I|constructor].
    + cbn. lia.
    + cbn. lia.
  - apply Hcontinue.
    + exact I.
    + constructor; [exact I|constructor].
    + cbn. lia.
    + cbn. lia.
  - apply Hcontinue.
    + apply checkMessageForScam_levelAgrees.
    + constructor.
    + cbn. lia.
    + cbn. lia.
  - apply Hcomplete.
    + constructor; [|constructor]. split; [reflexivity|exact Ha].
    + cbn. lia.
    + cbn. lia.
Qed.

Lemma step_accounted (s : Chat) (e : Event) :
  accounted s -> accounted (step s e).
Proof.
  intros Hs.
  destruct e as [input|k fulfilled|k fetched|]; cbn [step].
  - unfold handleSendMessage.
    destruct (noUser (userId s) || isSendingMessage s); [exact Hs|].
    destruct Hs as (HA & HL & HW & HP).
    unfold accounted. cbn [collection inFlight].
    rewrite !map_app, !list_sum_app. cbn.
    repeat split; try lia; try assumption.
    apply Forall_app. split; [exact HP|]. repeat constructor.
  - destruct (nth_error (inFlight s) k) eqn:Hk; [|exact Hs].
    now apply resume_accounted.
  - destruct (nth_error (inFlight s) k) eqn:Hk; [|exact Hs].
    now apply resume_accounted.
  - exact Hs.
Qed.

(** X10.  From an idle component with an empty collection, in every
    collection reached: the documents that carry an analysis are at most as
    many as the user documents, the documents are at most three per user
    document, and every stored analysis belongs to a document of the
    assistant with [isScam] agreeing with its level. *)
Theorem stored_documents_bounded (s0 : Chat) (events : list Event) :
  idle s0 ->
  collection s0 = [] ->
  (List.length (filter hasAnalysis (collection (run s0 events)))
   <= List.length (filter fromUser (collection (run s0 events))))%nat /\
  (List.length (collection (run s0 events))
   <= 3 * List.length (filter fromUser (collection (run s0 events))))%nat /\
  Forall analysisWellFormed (collection (run s0 events)).
Proof.
  intros [_ Hnone] Hempty.
  assert (H0 : accounted s0).
  { unfold accounted. rewrite Hnone, Hempty. cbn. repeat split; auto. }
  assert (H : accounted (run s0 events)).
  { clear Hnone Hempty. unfold run. revert s0 H0.
    induction events as [|e events IH]; intros s Hs; cbn [fold_left].
    - exact Hs.
    - apply IH, step_accounted, Hs. }
  destruct H as (HA & HL & HW & _). repeat split; try lia. exact HW.
Qed.

Lemma stored_documents_bounded_witness :
  (List.length (filter hasAnalysis
                  (collection (run signedIn (turn "hi" forbidden))))
   <= List.length (filter fromUser
                     (collection (run signedIn (turn "hi" forbidden)))))%nat /\
  (List.length (collection (run signedIn (turn "hi" forbidden)))
   <= 3 * List.length (filter fromUser
                         (collection (run signedIn (turn "hi" forbidden)))))%nat /\
  Forall analysisWellFormed (collection (run signedIn (turn "hi" forbidden))).
Proof.
  apply (stored_documents_bounded signedIn (turn "hi" forbidden)).
  - split; reflexivity.
  - reflexivity.
Defined.

(* ================================================================== *)
(** ** Further properties of the display sort *)
(* ================================================================== *)

Section ArraySortByKey.
Context {A : Type}.
Variable compareFn : A -> A -> Q.
Variable key : A -> Q.
Hypothesis compare_keys : forall x y, (compareFn x y == key x - key y)%Q.

Lemma sort_of_sorted (l : list A) :
  StronglySorted (fun a b => (key a <= key b)%Q) l ->
  sort compareFn l = l.
Proof.
  induction 1 as [|x l Hsorted IH Hall]; [reflexivity|].
  cbn [sort]. rewrite IH.
  destruct l as [|y l']; [reflexivity|]. cbn [insert].
  apply Forall_inv in Hall.
  assert (Hle : (compareFn x y <= 0)%Q) by (rewrite compare_keys; lra).
  apply Qle_bool_iff in Hle. rewrite Hle. reflexivity.
Qed.

Lemma sorted_permutation_unique (l1 l2 : list A) :
  (forall a b, In a l1 -> In b l1 -> (key a == key b)%Q -> a = b) ->
  StronglySorted (fun a b => (key a <= key b)%Q) l1 ->
  StronglySorted (fun a b => (key a <= key b)%Q) l2 ->
  Permutation l1 l2 ->
  l1 = l2.
Proof.
  intros Hdistinct Hs1. revert l2.
  induction Hs1 as [|x l Hsorted IH Hall]; intros l2 Hs2 Hperm.
  - apply Permutation_nil in Hperm. now subst.
  - destruct Hs2 as [|y l' Hsorted' Hall'].
    + apply Permutation_sym, Permutation_nil in Hperm. discriminate.
    + assert (Hxy : x = y).
      { assert (Hy : In y (x :: l))
          by (eapply Permutation_in; [apply Permutation_sym, Hperm|now left]).
        assert (Hx : In x (y :: l'))
          by (eapply Permutation_in; [exact Hperm|now left]).
        destruct Hy as [Hy|Hy]; [exact Hy|].
        destruct Hx as [Hx|Hx]; [now symmetry|].
        rewrite Forall_forall in Hall, Hall'.
        pose proof (Hall y Hy) as Hle. pose proof (Hall' x Hx) as Hge.
        apply Hdistinct; [now left|now right|lra]. }
      subst y. f_equal. apply IH.
      * intros a b Ha Hb. apply Hdistinct; now right.
      * exact Hsorted'.
      * now apply Permutation_cons_inv in Hperm.
Qed.
End ArraySortByKey.

Lemma byTime_keys (toDouble : Q -> Q) (x y : Message) :
  (byTime toDouble x y == timeOf toDouble x - timeOf toDouble y)%Q.
Proof. unfold byTime. reflexivity. Qed.

(** X11.  A list that is already in ascending order of time is displayed as
    it is, and sorting is idempotent: sorting the displayed list again
    changes nothing. *)
Theorem sorted_messages_unchanged (toDouble : Q -> Q) (messages : list Message) :
  StronglySorted (fun a b => (timeOf toDouble a <= timeOf toDouble b)%Q)
                 messages ->
  sortedMessages toDouble messages = messages /\
  (forall others,
      sortedMessages toDouble (sortedMessages toDouble others)
      = sortedMessages toDouble others).
Proof.
  intros Hsorted. unfold sortedMessages. split.
  - apply (sort_of_sorted (byTime toDouble) (timeOf toDouble));
      [apply byTime_keys|exact Hsorted].
  - intros others.
    apply (sort_of_sorted (byTime toDouble) (timeOf toDouble));
      [apply byTime_keys|].
    apply (sort_sorted (byTime toDouble) (timeOf toDouble)), byTime_keys.
Qed.

Lemma sorted_messages_unchanged_witness :
  sortedMessages exact [messageAt "b" None; messageAt "c" (atSecond 2)]
  = [messageAt "b" None; messageAt "c" (atSecond 2)] /\
  (forall others,
      sortedMessages exact (sortedMessages exact others)
      = sortedMessages exact others).
Proof.
  apply (sorted_messages_unchanged
           exact [messageAt "b" None; messageAt "c" (atSecond 2)]).
  repeat constructor. vm_compute. discriminate.
Defined.

(** X12.  When no two different messages have the same time, the displayed
    order depends on the set of messages only, not on the order in which
    the snapshot lists them. *)
Theorem display_order_independent_of_delivery
  (toDouble : Q -> Q) (messages shuffled : list Message) :
  Permutation messages shuffled ->
  (forall a b, In a messages -> In b messages ->
               (timeOf toDouble a == timeOf toDouble b)%Q -> a = b) ->
  sortedMessages toDouble messages = sortedMessages toDouble shuffled.
Proof.
  intros Hperm Hdistinct. unfold sortedMessages.
  assert (H1 : Permutation messages (sort (byTime toDouble) messages))
    by apply sort_permutation.
  assert (H2 : Permutation shuffled (sort (byTime toDouble) shuffled))
    by apply sort_permutation.
  apply (sorted_permutation_unique (timeOf toDouble)).
  - intros a b Ha Hb. apply Hdistinct;
      eapply Permutation_in; try apply Permutation_sym, H1; assumption.
  - apply (sort_sorted (byTime toDouble) (timeOf toDouble)), byTime_keys.
  - apply (sort_sorted (byTime toDouble) (timeOf toDouble)), byTime_keys.
  - eapply perm_trans; [apply Permutation_sym, H1|].
    eapply perm_trans; [exact Hperm|exact H2].
Qed.

Lemma display_order_independent_of_delivery_witness :
  sortedMessages exact delivered = sortedMessages exact deliveredOtherwise.
Proof.
  apply (display_order_independent_of_delivery
           exact delivered deliveredOtherwise).
  - unfold delivered, deliveredOtherwise.
    eapply perm_trans; [apply perm_skip, perm_swap|]. apply perm_swap.
  - unfold delivered.
    intros a b [<-|[<-|[<-|[]]]] [<-|[<-|[<-|[]]]] H;
      try reflexivity; vm_compute in H; discriminate H.
Defined.

(* ================================================================== *)
(** ** Decimal numerals and the documented answer format *)
(* ================================================================== *)

Lemma validLevel_plain (level : string) :
  In level validLevels ->
  count "|" level = 0%nat /\ trim level = level /\
  includes validLevels level = true.
Proof.
  intros [<-|[<-|[<-|[]]]]; repeat split; reflexivity.
Qed.

Lemma split_formatAnswer (level : string) (n : Z) (explanation : string) :
  isSafeInteger n ->
  count "|" level = 0%nat ->
  count "|" explanation = 0%nat ->
  split "|" (formatAnswer level n explanation)
  = [level; decimal n; explanation].
Proof.
  intros Hsafe Hlevel Hexpl. unfold formatAnswer.
  rewrite (safe_numberToString n Hsafe).
  destruct (decimal_plain n) as [Hbar _].
  change ("|" ++ decimal n ++ "|" ++ explanation)
    with (String "|" (decimal n ++ String "|" explanation)).
  rewrite (split_first_piece "|" level _ Hlevel).
  rewrite (split_first_piece "|" (decimal n) _ Hbar).
  rewrite (split_without_separator "|" explanation Hexpl). reflexivity.
Qed.

(** X13.  An answer in the format that the prompt asks for is read back
    field by field: for one of the three levels, a percentage that is a
    safe integer (at most 2^53 - 1 in absolute value, so also negative or
    above 100) printed as the program prints numbers, and an explanation
    without [|], the parser returns that level, that percentage and the
    trimmed explanation (the fixed text when it is blank), with [isScam]
    set unless the level is SAFE. *)
Theorem answer_format_round_trip
  (level : string) (n : Z) (explanation : string) :
  In level validLevels ->
  isSafeInteger n ->
  count "|" explanation = 0%nat ->
  parseRawText (formatAnswer level n explanation) =
    {| isScam := negb (String.eqb level "SAFE");
       scamLevel := level;
       scamPercentage := n;
       scamWarning := or_else (trim explanation)
                              "No specific reason provided." |}.
Proof.
  intros Hlevel Hsafe Hexpl.
  destruct (validLevel_plain level Hlevel) as (Hbar & Htrim & Hincl).
  destruct (decimal_plain n) as [_ Hnumber].
  unfold parseRawText.
  rewrite (split_formatAnswer level n explanation Hsafe Hbar Hexpl).
  cbn [List.length Nat.leb nth].
  rewrite Htrim, Hnumber, Hincl, parseInt_decimal_numeral.
  rewrite (safe_toNumber n Hsafe). reflexivity.
Qed.

Lemma answer_format_round_trip_witness :
  parseRawText (formatAnswer "POTENTIAL_SCAM" 9007199254740991
                             " Asks for money. ") =
    {| isScam := negb (String.eqb "POTENTIAL_SCAM" "SAFE");
       scamLevel := "POTENTIAL_SCAM";
       scamPercentage := 9007199254740991;
       scamWarning := or_else (trim " Asks for money. ")
                              "No specific reason provided." |}.
Proof.
  apply (answer_format_round_trip "POTENTIAL_SCAM" 9007199254740991
                                  " Asks for money. ").
  - right; left; reflexivity.
  - unfold isSafeInteger. simpl. lia.
  - reflexivity.
Defined.

(** Past the safe integers the round trip is lost: the number that prints
    as 1e+21 is read back as 1. *)
Example exponent_notation_is_not_read_back :
  numberToString (toNumber (10 ^ 21)) = "1e+21" /\
  parseInt (numberToString (toNumber (10 ^ 21))) = Some (Finite 1).
Proof. split; vm_compute; reflexivity. Qed.

(* ================================================================== *)
(** ** Further properties of the classifier call *)
(* ================================================================== *)

Lemma parseRawText_not_error (rawText : string) :
  scamLevel (parseRawText rawText) <> "ERROR".
Proof.
  destruct (parseRawText_cases rawText) as [E|(pct & _ & Hlvl & _ & E)];
    rewrite E; cbn [scamLevel unknownResult]; [discriminate|].
  destruct (includes_validLevels _ Hlvl) as [L|[L|L]]; rewrite L; discriminate.
Qed.

(** X14.  Level ERROR marks a failed call and nothing else: no text of the
    model parses to level ERROR (a reply such as [ERROR|0|x] is UNKNOWN),
    and the classifier returns level ERROR exactly when something was
    thrown inside its [try] block. *)
Theorem error_level_only_from_failure
  (rawText : string) (fetched : FetchOutcome) :
  scamLevel (parseRawText rawText) <> "ERROR" /\
  parseRawText "ERROR|0|x" = unknownResult /\
  (scamLevel (checkMessageForScam fetched) = "ERROR" <->
   exists message, tryBlock fetched = Throw message /\
                   checkMessageForScam fetched = errorResult message).
Proof.
  split; [apply parseRawText_not_error|]. split; [reflexivity|].
  unfold checkMessageForScam.
  destruct (tryBlock fetched) as [c|message] eqn:E.
  - split.
    + intros H. destruct (tryBlock_returns_parse _ _ E) as [raw ->].
      now apply parseRawText_not_error in H.
    + intros (message & Hthrow & _). discriminate Hthrow.
  - split; [|reflexivity]. intros _. now exists message.
Qed.


(* ================================================================== *)
(** ** The message bubble *)
(* ================================================================== *)

Lemma scamPanel_shown (msg : Message) (c : Classification) :
  analysis (data msg) = Some c ->
  levelAgrees c ->
  (scamLevel c = "POTENTIAL_SCAM" \/ scamLevel c = "HIGHLY_LIKELY_SCAM") ->
  isScam c = true /\
  scamPanel msg =
    Some {| indicatorColor := getScamIndicatorColor (Some (scamLevel c));
            textColor := getScamTextColor (Some (scamLevel c));
            icon := getScamIcon (Some (scamLevel c));
            title := getScamTitle (Some (scamLevel c))
                                  (Some (scamPercentage c));
            bar := Some (getPercentageBarColor (Some (scamLevel c)),
                         numberToString (scamPercentage c) ++ "%");
            warning := Some (scamWarning c) |}.
Proof.
  intros Hmsg Hagree Hlevel.
  assert (Hscam : isScam c = true).
  { destruct Hagree as [[L _]|[[_ S]|[[_ S]|[[L _]|[L _]]]]]; try exact S;
      destruct Hlevel as [L'|L']; rewrite L in L'; discriminate L'. }
  split; [exact Hscam|].
  unfold scamPanel, msgIsScam, msgScamLevel, msgScamPercentage, msgScamWarning.
  rewrite Hmsg. cbn [option_map]. rewrite Hscam. cbn [truthyBool andb].
  destruct Hlevel as [L|L]; rewrite L; reflexivity.
Qed.

Lemma scamPanel_hidden (msg : Message) (c : Classification) :
  analysis (data msg) = Some c ->
  levelAgrees c ->
  (scamLevel c = "SAFE" \/ scamLevel c = "UNKNOWN" \/ scamLevel c = "ERROR") ->
  scamPanel msg = None.
Proof.
  intros Hmsg Hagree Hlevel.
  assert (Hscam : isScam c = false).
  { destruct Hagree as [[_ S]|[[L _]|[[L _]|[[_ S]|[_ S]]]]]; try exact S;
      destruct Hlevel as [L'|[L'|L']]; rewrite L in L'; discriminate L'. }
  unfold scamPanel, msgIsScam. rewrite Hmsg. cbn [option_map].
  rewrite Hscam. reflexivity.
Qed.

(** X16.  For a message that carries a result of the classifier, the
    warning box is rendered exactly when the level is POTENTIAL_SCAM or
    HIGHLY_LIKELY_SCAM.  For SAFE, UNKNOWN and ERROR nothing is rendered,
    so the explanation of a failed call is never shown. *)
Theorem panel_only_for_scam_levels (msg : Message) (fetched : FetchOutcome) :
  analysis (data msg) = Some (checkMessageForScam fetched) ->
  (scamPanel msg <> None <->
   scamLevel (checkMessageForScam fetched) = "POTENTIAL_SCAM" \/
   scamLevel (checkMessageForScam fetched) = "HIGHLY_LIKELY_SCAM") /\
  (CallFails fetched -> scamPanel msg = None).
Proof.
  intros Hmsg.
  pose proof (checkMessageForScam_levelAgrees fetched) as Hagree.
  split.
  - split.
    + intros Hshown.
      destruct Hagree as [[L _]|[[L _]|[[L _]|[[L _]|[L _]]]]]; auto;
        exfalso; apply Hshown;
        apply (scamPanel_hidden msg _ Hmsg (checkMessageForScam_levelAgrees _));
        auto.
    + intros Hlevel.
      destruct (scamPanel_shown msg _ Hmsg Hagree Hlevel) as [_ ->].
      discriminate.
  - intros Hfails.
    apply (scamPanel_hidden msg _ Hmsg Hagree).
    right; right. now apply failed_call_error_level.
Qed.

Lemma panel_only_for_scam_levels_witness :
  (scamPanel (analysed "m1" None (checkMessageForScam forbidden)) <> None <->
   scamLevel (checkMessageForScam forbidden) = "POTENTIAL_SCAM" \/
   scamLevel (checkMessageForScam forbidden) = "HIGHLY_LIKELY_SCAM") /\
  (CallFails forbidden ->
   scamPanel (analysed "m1" None (checkMessageForScam forbidden)) = None).
Proof.
  apply (panel_only_for_scam_levels
           (analysed "m1" None (checkMessageForScam forbidden)) forbidden).
  reflexivity.
Defined.

(** X17.  When the warning box is rendered for a result of the classifier,
    it never has the SAFE look: it has either the red look, the police
    light and the title "HIGHLY LIKELY SCAM!", or the yellow look, the
    warning sign and the title "POTENTIAL SCAM".  It shows the explanation,
    and the width of the bar is the percentage as it is, also above 100. *)
Theorem rendered_panel_is_red_or_yellow
  (msg : Message) (fetched : FetchOutcome) (panel : ScamPanel) :
  analysis (data msg) = Some (checkMessageForScam fetched) ->
  scamPanel msg = Some panel ->
  warning panel = Some (scamWarning (checkMessageForScam fetched)) /\
  ((icon panel = PoliceLight /\
    textColor panel = "text-red-400" /\
    title panel =
      "HIGHLY LIKELY SCAM! ("
      ++ numberToString (scamPercentage (checkMessageForScam fetched))
      ++ "% confidence)" /\
    bar panel =
      Some ("bg-red-500",
            numberToString (scamPercentage (checkMessageForScam fetched))
            ++ "%"))
   \/
   (icon panel = WarningSign /\
    textColor panel = "text-yellow-400" /\
    title panel =
      "POTENTIAL SCAM ("
      ++ numberToString (scamPercentage (checkMessageForScam fetched))
      ++ "% confidence)" /\
    bar panel =
      Some ("bg-yellow-500",
            numberToString (scamPercentage (checkMessageForScam fetched))
            ++ "%"))).
Proof.
  intros Hmsg Hpanel.
  pose proof (checkMessageForScam_levelAgrees fetched) as Hagree.
  assert (Hlevel :
            scamLevel (checkMessageForScam fetched) = "POTENTIAL_SCAM" \/
            scamLevel (checkMessageForScam fetched) = "HIGHLY_LIKELY_SCAM").
  { destruct Hagree as [[L _]|[[L _]|[[L _]|[[L _]|[L _]]]]]; auto;
      rewrite (scamPanel_hidden msg _ Hmsg
                 (checkMessageForScam_levelAgrees _)) in Hpanel;
      auto; discriminate Hpanel. }
  destruct (scamPanel_shown msg _ Hmsg Hagree Hlevel) as [_ E].
  rewrite E in Hpanel. injection Hpanel as <-.
  cbn [warning icon textColor title bar]. split; [reflexivity|].
  destruct Hlevel as [L|L]; rewrite L; [right|left]; repeat split.
Qed.

Lemma rendered_panel_is_red_or_yellow_witness :
  warning overTheTopPanel
  = Some (scamWarning
            (checkMessageForScam (answered "HIGHLY_LIKELY_SCAM|150|Lottery.")))
  /\
  ((icon overTheTopPanel = PoliceLight /\
    textColor overTheTopPanel = "text-red-400" /\
    title overTheTopPanel =
      "HIGHLY LIKELY SCAM! ("
      ++ numberToString
           (scamPercentage
              (checkMessageForScam (answered "HIGHLY_LIKELY_SCAM|150|Lottery.")))
      ++ "% confidence)" /\
    bar overTheTopPanel =
      Some ("bg-red-500",
            numberToString
              (scamPercentage
                 (checkMessageForScam
                    (answered "HIGHLY_LIKELY_SCAM|150|Lottery.")))
            ++ "%"))
   \/
   (icon overTheTopPanel = WarningSign /\
    textColor overTheTopPanel = "text-yellow-400" /\
    title overTheTopPanel =
      "POTENTIAL SCAM ("
      ++ numberToString
           (scamPercentage
              (checkMessageForScam (answered "HIGHLY_LIKELY_SCAM|150|Lottery.")))
      ++ "% confidence)" /\
    bar overTheTopPanel =
      Some ("bg-yellow-500",
            numberToString
              (scamPercentage
                 (checkMessageForScam
                    (answered "HIGHLY_LIKELY_SCAM|150|Lottery.")))
            ++ "%"))).
Proof.
  apply (rendered_panel_is_red_or_yellow
           (analysed "m1" None
              (checkMessageForScam (answered "HIGHLY_LIKELY_SCAM|150|Lottery.")))
           (answered "HIGHLY_LIKELY_SCAM|150|Lottery.")
           overTheTopPanel).
  - reflexivity.
  - reflexivity.
Defined.

(* ================================================================== *)
(** ** The component *)
(* ================================================================== *)

(** Only a render changes the constants that the callback closes over. *)
Lemma step_constants (s : Chat) (e : Event) :
  e <> Rendered ->
  userId (step s e) = userId s /\
  isSendingMessage (step s e) = isSendingMessage s.
Proof.
  intros He.
  assert (Hresume : forall k a,
             userId (resume s k a e) = userId s /\
             isSendingMessage (resume s k a e) = isSendingMessage s).
  { intros k a.
    destruct a, e as [input'|k' [|]|k' fetched|]; split; reflexivity. }
  destruct e as [input|k fulfilled|k fetched|]; cbn [step].
  - unfold handleSendMessage.
    destruct (noUser (userId s) || isSendingMessage s); split; reflexivity.
  - destruct (nth_error (inFlight s) k); [apply Hresume|split; reflexivity].
  - destruct (nth_error (inFlight s) k); [apply Hresume|split; reflexivity].
  - congruence.
Qed.

Lemma submitForm_chat (c : Chat) (input : string) :
  fst (submitForm c input) = c \/
  exists sent, fst (submitForm c input) = step c (Submit sent).
Proof.
  unfold submitForm. destruct (fst (handleSubmit input)) as [sent|].
  - right. now exists sent.
  - now left.
Qed.

Lemma appStep_invariant (s : App) (e : AppEvent) :
  uidPresent e -> appInvariant s -> appInvariant (appStep s e).
Proof.
  intros Huid (Hloaded & Hlistening & Hform).
  assert (Hs : appInvariant s) by exact (conj Hloaded (conj Hlistening Hform)).
  assert (Hchat : forall c,
             userId c = userId (chat s) ->
             isSendingMessage c = isSendingMessage (chat s) ->
             appInvariant (withChat s c)).
  { intros c Hu Hf. unfold appInvariant, withChat.
    cbn [chat userIdState isLoadingMessages listening formOnScreen].
    rewrite Hu, Hf. exact (conj Hloaded (conj Hlistening Hform)). }
  destruct e as [[uid|]| |docs| | |input|e|]; cbn [appStep].
  - assert (Huid' : noUser (Some uid) = false)
      by (destruct uid; [contradiction|reflexivity]).
    unfold appInvariant.
    cbn [chat userIdState isLoadingMessages listening formOnScreen].
    repeat split; auto; now apply Hform.
  - exact Hs.
  - now apply Hchat.
  - destruct (listening s) eqn:Hsub; [|exact Hs].
    unfold appInvariant.
    cbn [chat userIdState isLoadingMessages listening formOnScreen].
    repeat split; auto; now apply Hform.
  - destruct (listening s) eqn:Hsub; [|exact Hs].
    unfold appInvariant.
    cbn [chat userIdState isLoadingMessages listening formOnScreen
         setError userId isSendingMessage].
    repeat split; auto; now apply Hform.
  - unfold appInvariant.
    cbn [chat userIdState isLoadingMessages listening formOnScreen].
    repeat split; auto; now apply Hform.
  - destruct (formOnScreen s); [|exact Hs].
    destruct (submitForm_chat (chat s) input) as [E|[sent E]]; rewrite E.
    + now apply Hchat.
    + apply Hchat; apply step_constants; discriminate.
  - destruct e as [input|k fulfilled|k fetched|]; try exact Hs;
      apply Hchat; apply step_constants; discriminate.
  - unfold appInvariant, appRender.
    cbn [chat userIdState isLoadingMessages listening formOnScreen
         userId isSendingMessage].
    split; [exact Hloaded|]. split.
    + unfold subscribes. intros H.
      apply andb_true_iff in H as [H _]. now apply negb_true_iff in H.
    + unfold formEnabled. intros H.
      apply andb_true_iff in H as [H Hsending].
      apply andb_true_iff in H as [_ Hloading].
      apply negb_true_iff in Hsending. apply negb_true_iff in Hloading.
      split; [now apply Hloaded|exact Hsending].
Qed.

Lemma runApp_invariant (events : list AppEvent) :
  forall s, Forall uidPresent events -> appInvariant s ->
            appInvariant (runApp s events).
Proof.
  unfold runApp.
  induction events as [|e events IH]; intros s Hev Hs; cbn [fold_left].
  - exact Hs.
  - inversion Hev as [|e' events' He Hrest]; subst.
    apply IH; [exact Hrest|]. now apply appStep_invariant.
Qed.

Lemma initialApp_invariant (stored : list DocData) :
  appInvariant (initialApp stored).
Proof. repeat split; discriminate. Qed.

(** X18.  In every state that the component reaches, a form that is on
    the screen with its text area enabled was rendered with a user signed
    in and nothing being sent, and its callback still sees these values; so
    a submitted text that is not blank is always accepted, also when a
    turn has started since that render: an activation on the trimmed text
    is added after those in flight, the collection is not touched yet, the
    state behind [isSendingMessage] is set, and the next render takes the
    usable form off the screen. *)
Theorem usable_form_accepts_submission
  (stored : list DocData) (events : list AppEvent) (input : string) :
  Forall uidPresent events ->
  formOnScreen (runApp (initialApp stored) events) = true ->
  allWhiteSpace input = false ->
  noUser (userId (chat (runApp (initialApp stored) events))) = false /\
  isSendingMessage (chat (runApp (initialApp stored) events)) = false /\
  inFlight (chat (appStep (runApp (initialApp stored) events)
                          (FormSubmitted input)))
  = (inFlight (chat (runApp (initialApp stored) events))
     ++ [AwaitUserDoc (trim input)])%list /\
  collection (chat (appStep (runApp (initialApp stored) events)
                            (FormSubmitted input)))
  = collection (chat (runApp (initialApp stored) events)) /\
  sendingState (chat (appStep (runApp (initialApp stored) events)
                              (FormSubmitted input))) = true /\
  formOnScreen (appStep (appStep (runApp (initialApp stored) events)
                                 (FormSubmitted input))
                        AppRendered) = false.
Proof.
  intros Hev Hshown Hinput.
  destruct (runApp_invariant events (initialApp stored) Hev
              (initialApp_invariant stored)) as (_ & _ & Hform).
  set (s := runApp (initialApp stored) events) in *.
  destruct (Hform Hshown) as [Huser Hflag].
  split; [exact Huser|]. split; [exact Hflag|].
  cbn [appStep]. rewrite Hshown.
  unfold submitForm. rewrite (handleSubmit_not_blank input Hinput).
  cbn [fst snd]. unfold handleSendMessage. rewrite Huser, Hflag.
  cbn [orb]. unfold withChat, appRender, formEnabled.
  cbn [chat inFlight collection sendingState].
  repeat split. now rewrite andb_false_r.
Qed.

Lemma usable_form_accepts_submission_witness :
  noUser (userId (chat (runApp (initialApp []) opening))) = false /\
  isSendingMessage (chat (runApp (initialApp []) opening)) = false /\
  inFlight (chat (appStep (runApp (initialApp []) opening)
                          (FormSubmitted " hello ")))
  = (inFlight (chat (runApp (initialApp []) opening))
     ++ [AwaitUserDoc (trim " hello ")])%list /\
  collection (chat (appStep (runApp (initialApp []) opening)
                            (FormSubmitted " hello ")))
  = collection (chat (runApp (initialApp []) opening)) /\
  sendingState (chat (appStep (runApp (initialApp []) opening)
                              (FormSubmitted " hello "))) = true /\
  formOnScreen (appStep (appStep (runApp (initialApp []) opening)
                                 (FormSubmitted " hello "))
                        AppRendered) = false.
Proof.
  apply (usable_form_accepts_submission [] opening " hello ").
  - repeat constructor.
  - reflexivity.
  - reflexivity.
Defined.

(** The form on the screen is stale until the next render: two submissions
    in a row are both accepted. *)
Example form_accepts_two_submissions_before_render :
  inFlight (chat (runApp (initialApp [])
                         (opening ++ [FormSubmitted "first";
                                      FormSubmitted "second"])))
  = [AwaitUserDoc "first"; AwaitUserDoc "second"].
Proof. reflexivity. Qed.

Lemma appStep_error (s : App) (e : AppEvent) :
  error (chat s) <> EmptyString -> error (chat (appStep s e)) <> EmptyString.
Proof.
  intros Herr.
  assert (Hstep : forall e', error (step (chat s) e') <> EmptyString).
  { intros e'. destruct (step_error (chat s) e') as [E|E]; rewrite E;
      [exact Herr|discriminate]. }
  destruct e as [[uid|]| |docs| | |input|e|]; cbn [appStep];
    try exact Herr; try discriminate.
  - destruct (listening s); exact Herr.
  - destruct (listening s); [discriminate|exact Herr].
  - destruct (formOnScreen s); [|exact Herr].
    destruct (submitForm_chat (chat s) input) as [E|[sent E]];
      cbn [withChat chat]; rewrite E; [exact Herr|apply Hstep].
  - destruct e as [input|k fulfilled|k fetched|]; try exact Herr;
      cbn [withChat chat]; apply Hstep.
Qed.

(** X19.  An error blocks the component for good: once [error] is set (a
    rejected sign-in, a failed snapshot, a rejected append), it stays set
    through every later event, a render never shows the form again, and
    what is rendered is the splash screen or the error screen. *)
Theorem error_blocks_the_component
  (toDouble : Q -> Q) (s : App) (later : list AppEvent) :
  error (chat s) <> EmptyString ->
  error (chat (runApp s later)) <> EmptyString /\
  formEnabled (runApp s later) = false /\
  (view toDouble (runApp s later) = SplashView \/
   view toDouble (runApp s later) = ErrorView (error (chat (runApp s later)))) /\
  formOnScreen (appStep (runApp s later) AppRendered) = false.
Proof.
  intros Herr.
  assert (Hkept : error (chat (runApp s later)) <> EmptyString).
  { unfold runApp. revert s Herr.
    induction later as [|e later IH]; intros s Herr; cbn [fold_left].
    - exact Herr.
    - apply IH. now apply appStep_error. }
  split; [exact Hkept|].
  assert (Hform : formEnabled (runApp s later) = false).
  { unfold formEnabled.
    destruct (error (chat (runApp s later))); [congruence|].
    now rewrite andb_false_r. }
  split; [exact Hform|]. split; [|exact Hform].
  unfold view.
  destruct (error (chat (runApp s later))) eqn:E; [congruence|].
  destruct (showSplashScreen (runApp s later)); auto.
Qed.

Lemma error_blocks_the_component_witness :
  error (chat (runApp (runApp (initialApp []) (opening ++ [SnapshotError]))
                      [Snapshot []; FormSubmitted "hello"])) <> EmptyString /\
  formEnabled (runApp (runApp (initialApp []) (opening ++ [SnapshotError]))
                      [Snapshot []; FormSubmitted "hello"]) = false /\
  (view exact (runApp (runApp (initialApp []) (opening ++ [SnapshotError]))
                      [Snapshot []; FormSubmitted "hello"]) = SplashView \/
   view exact (runApp (runApp (initialApp []) (opening ++ [SnapshotError]))
                      [Snapshot []; FormSubmitted "hello"])
   = ErrorView
       (error (chat (runApp (runApp (initialApp [])
                                    (opening ++ [SnapshotError]))
                            [Snapshot []; FormSubmitted "hello"])))) /\
  formOnScreen
    (appStep (runApp (runApp (initialApp []) (opening ++ [SnapshotError]))
                     [Snapshot []; FormSubmitted "hello"])
             AppRendered) = false.
Proof.
  apply (error_blocks_the_component
           exact (runApp (initialApp []) (opening ++ [SnapshotError]))
           [Snapshot []; FormSubmitted "hello"]).
  vm_compute. discriminate.
Defined.

(* ================================================================== *)
(** ** From the answer of the endpoint to the screen *)
(* ================================================================== *)

Lemma checkMessageForScam_answered (rawText : string) :
  checkMessageForScam (answered rawText) = parseRawText rawText.
Proof. reflexivity. Qed.

(** X20.  End to end: when the endpoint answers in the format of the prompt
    with level POTENTIAL_SCAM or HIGHLY_LIKELY_SCAM, a percentage that is a
    safe integer and an explanation that is not blank and has no [|], a
    turn whose appends succeed stores the user's text, the placeholder and
    a final document with exactly that level, percentage and trimmed
    explanation; and the bubble of that document shows the warning box
    with that explanation, the title of the level with the numeral of the
    percentage, and a bar as wide as the percentage. *)
Theorem answered_turn_is_displayed
  (s : Chat) (input level : string) (n : Z) (explanation : string)
  (i : string) (t : option Timestamp) :
  noUser (userId s) = false ->
  idle s ->
  level = "POTENTIAL_SCAM" \/ level = "HIGHLY_LIKELY_SCAM" ->
  isSafeInteger n ->
  count "|" explanation = 0%nat ->
  allWhiteSpace explanation = false ->
  collection (run s (turn input (answered (formatAnswer level n explanation))))
  = (collection s ++
       [userDoc input; placeholderDoc;
        finalDoc (mkClassification true level n (trim explanation))])%list /\
  scamPanel {| id := i;
               data := finalDoc (mkClassification true level n
                                                  (trim explanation));
               timestamp := t |}
  = Some {| indicatorColor := getScamIndicatorColor (Some level);
            textColor := getScamTextColor (Some level);
            icon := getScamIcon (Some level);
            title := getScamTitle (Some level) (Some (Finite n));
            bar := Some (getPercentageBarColor (Some level),
                         decimal n ++ "%");
            warning := Some (trim explanation) |} /\
  getScamTitle (Some level) (Some (Finite n))
  = (if String.eqb level "HIGHLY_LIKELY_SCAM"
     then "HIGHLY LIKELY SCAM! (" else "POTENTIAL SCAM (")
    ++ decimal n ++ "% confidence)".
Proof.
  intros Huser [Hflag Hnone] Hlevel Hsafe Hbar Hblank.
  assert (Hin : In level validLevels).
  { destruct Hlevel as [-> | ->]; cbn; auto. }
  assert (Hparse : checkMessageForScam
                     (answered (formatAnswer level n explanation))
                   = mkClassification true level n (trim explanation)).
  { rewrite checkMessageForScam_answered.
    destruct (validLevel_plain level Hin) as (Hlbar & Htrim & Hincl).
    destruct (decimal_plain n) as [_ Hnumber].
    unfold parseRawText.
    rewrite (split_formatAnswer level n explanation Hsafe Hlbar Hbar).
    cbn [List.length Nat.leb nth].
    rewrite Htrim, Hnumber, Hincl, parseInt_decimal_numeral.
    rewrite (safe_toNumber n Hsafe).
    cbn [isNaN negb andb].
    apply trim_not_blank in Hblank.
    destruct (trim explanation) eqn:E; [congruence|].
    destruct Hlevel as [-> | ->]; reflexivity. }
  split; [|split].
  - destruct s as [uid sending state err docs active];
      cbn in Huser, Hflag, Hnone.
    subst sending active.
    unfold run, turn. cbn [fold_left step].
    unfold handleSendMessage. cbn [userId isSendingMessage inFlight].
    rewrite Huser. cbn [orb app nth_error resume continue complete
                        collection inFlight replaceAt removeAt
                        userId isSendingMessage error].
    rewrite Hparse, <- !app_assoc. reflexivity.
  - unfold scamPanel, msgIsScam, msgScamLevel, msgScamPercentage,
      msgScamWarning.
    cbn [analysis data finalDoc option_map isScam scamLevel scamPercentage
         scamWarning truthyBool andb].
    rewrite (safe_numberToString n Hsafe).
    destruct Hlevel as [-> | ->]; reflexivity.
  - unfold getScamTitle, templateNumber.
    rewrite (safe_numberToString n Hsafe).
    destruct Hlevel as [-> | ->]; reflexivity.
Qed.

Lemma answered_turn_is_displayed_witness :
  collection (run signedIn
                  (turn "You won a lottery"
                        (answered (formatAnswer "HIGHLY_LIKELY_SCAM" 88
                                                "Classic lottery scam pattern."))))
  = (collection signedIn ++
       [userDoc "You won a lottery"; placeholderDoc;
        finalDoc (mkClassification true "HIGHLY_LIKELY_SCAM" 88
                    (trim "Classic lottery scam pattern."))])%list /\
  scamPanel {| id := "m3";
               data := finalDoc (mkClassification true "HIGHLY_LIKELY_SCAM" 88
                                   (trim "Classic lottery scam pattern."));
               timestamp := None |}
  = Some {| indicatorColor := getScamIndicatorColor (Some "HIGHLY_LIKELY_SCAM");
            textColor := getScamTextColor (Some "HIGHLY_LIKELY_SCAM");
            icon := getScamIcon (Some "HIGHLY_LIKELY_SCAM");
            title := getScamTitle (Some "HIGHLY_LIKELY_SCAM")
                                  (Some (Finite 88));
            bar := Some (getPercentageBarColor (Some "HIGHLY_LIKELY_SCAM"),
                         decimal 88 ++ "%");
            warning := Some (trim "Classic lottery scam pattern.") |} /\
  getScamTitle (Some "HIGHLY_LIKELY_SCAM") (Some (Finite 88))
  = (if String.eqb "HIGHLY_LIKELY_SCAM" "HIGHLY_LIKELY_SCAM"
     then "HIGHLY LIKELY SCAM! (" else "POTENTIAL SCAM (")
    ++ decimal 88 ++ "% confidence)".
Proof.
  apply (answered_turn_is_displayed
           signedIn "You won a lottery" "HIGHLY_LIKELY_SCAM" 88
           "Classic lottery scam pattern." "m3" None).
  - reflexivity.
  - split; reflexivity.
  - right. reflexivity.
  - unfold isSafeInteger. simpl. lia.
  - reflexivity.
  - reflexivity.
Defined.

Lemma or_else_not_empty (a b : string) :
  b <> EmptyString -> or_else a b <> EmptyString.
Proof. destruct a; [auto|discriminate]. Qed.

Lemma parseRawText_explained (rawText : string) :
  scamWarning (parseRawText rawText) <> EmptyString /\
  (scamLevel (parseRawText rawText) = "UNKNOWN" ->
   scamPercentage (parseRawText rawText) = 0).
Proof.
  destruct (parseRawText_cases rawText) as [E|(pct & _ & Hlvl & _ & E)];
    rewrite E; cbn [scamWarning scamLevel scamPercentage unknownResult].
  - split; [discriminate|reflexivity].
  - split; [apply or_else_not_empty; discriminate|].
    intros L. rewrite L in Hlvl. discriminate Hlvl.
Qed.

(** X21.  Every classification that the classifier returns has an
    explanation that is not empty (the model's own, or one of the fixed
    texts), and its percentage is 0 whenever its level is UNKNOWN or
    ERROR. *)
Theorem classification_is_explained (fetched : FetchOutcome) :
  scamWarning (checkMessageForScam fetched) <> EmptyString /\
  (scamLevel (checkMessageForScam fetched) = "UNKNOWN" \/
   scamLevel (checkMessageForScam fetched) = "ERROR" ->
   scamPercentage (checkMessageForScam fetched) = 0).
Proof.
  unfold checkMessageForScam.
  destruct (tryBlock fetched) as [c|message] eqn:E.
  - destruct (tryBlock_returns_parse _ _ E) as [rawText ->].
    destruct (parseRawText_explained rawText) as [Hexpl Hzero].
    split; [exact Hexpl|].
    intros [L|L]; [now apply Hzero|].
    now apply parseRawText_not_error in L.
  - split; [discriminate|reflexivity].
Qed.
